(** * argocd-mcp: the two diagnostic scripts

    A shallow embedding of [scripts/test_client.py] (the protocol probe) and
    [scripts/verify_config.py] (the configuration auditor), and the
    properties of both that the specification talks about.

    The scripts are straight-line Python that writes to a console, talks to
    one subprocess and catches exceptions.  They are embedded in a state
    monad with exceptions whose state survives a raise, so that what was
    printed and sent before an exception is still there when the handler and
    the [finally] block run.  The operating system, the subprocess and
    [json.loads] are inputs of the model. *)

From Stdlib Require Import String Ascii List ZArith QArith Bool Lia.
Import ListNotations.
Local Open Scope string_scope.
Local Open Scope list_scope.
Set Warnings "-register-all".

(** ** The fragment of Python the scripts exercise *)
Module Py.

(** What [json.loads] can return.  [JNull] is Python's [None].  An object
    keeps its members in order, as a [dict] does, and its keys are distinct
    ([json.loads] keeps the last of repeated keys).  A string holds the
    UTF-8 bytes of the Python [str] (a lone surrogate, which an escape can
    produce, as the three bytes of its generalized encoding): a character
    is a byte that starts a sequence with the continuation bytes after it,
    and [len], indexing, iteration and slicing go by characters. *)
Inductive json : Type :=
| JNull
| JBool (b : bool)
| JInt (n : Z)
| JFloat (q : Q)
| JStr (s : string)
| JArr (items : list json)
| JObj (members : list (string * json)).

(** The exceptions that can arise; every one is a subclass of [Exception]. *)
Inductive exn : Type :=
| JSONDecodeError
| KeyError
| IndexError
| TypeError
| AttributeError
| BrokenPipeError
| UnicodeDecodeError
| FileNotFoundError
| TimeoutExpired
| OSError.

Definition result (A : Type) : Type := (exn + A)%type.
Definition ok {A} (a : A) : result A := inr a.
Definition throw {A} (e : exn) : result A := inl e.

(** [bool(v)] *)
Definition truthy (v : json) : bool :=
  match v with
  | JNull => false
  | JBool b => b
  | JInt n => negb (n =? 0)%Z
  | JFloat q => negb (Qeq_bool q 0)
  | JStr s => negb (s =? "")
  | JArr items => match items with [] => false | _ => true end
  | JObj members => match members with [] => false | _ => true end
  end.

(** [dict] lookup by a string key. *)
Fixpoint lookup (k : string) (members : list (string * json)) : option json :=
  match members with
  | [] => None
  | (k', v) :: rest => if k' =? k then Some v else lookup k rest
  end.

Definition has_key (k : string) (members : list (string * json)) : bool :=
  match lookup k members with Some _ => true | None => false end.

(** *** Characters of a string *)

(** A byte that continues a UTF-8 sequence: [10xxxxxx]. *)
Definition is_continuation (c : ascii) : bool :=
  match c with
  | Ascii _ _ _ _ _ _ false true => true
  | _ => false
  end.

(** The number of characters of a string. *)
Fixpoint code_points (s : string) : nat :=
  match s with
  | EmptyString => 0
  | String c rest =>
      (if is_continuation c then 0 else 1) + code_points rest
  end.

(** The first [n] characters of a string: every byte up to the one that
    starts character [n + 1]. *)
Fixpoint take_chars (n : nat) (s : string) : string :=
  match s with
  | EmptyString => EmptyString
  | String c rest =>
      if is_continuation c then String c (take_chars n rest)
      else match n with
           | O => EmptyString
           | S m => String c (take_chars m rest)
           end
  end.

(** The continuation bytes a string starts with, and after them its
    characters, one string each. *)
Fixpoint split_chars (s : string) : string * list string :=
  match s with
  | EmptyString => (EmptyString, [])
  | String c rest =>
      let '(pre, cs) := split_chars rest in
      if is_continuation c then (String c pre, cs)
      else (EmptyString, String c pre :: cs)
  end.

(** [x == k] for a string [k]: only an equal string is equal. *)
Definition is_str (k : string) (x : json) : bool :=
  match x with JStr s => s =? k | _ => false end.

Definition is_substring (k s : string) : bool :=
  match index 0 k s with Some _ => true | None => false end.

(** [k in v] for a string [k]: key of a dict, element of a list, substring
    of a string; any other value is not iterable. *)
Definition contains (k : string) (v : json) : result bool :=
  match v with
  | JObj members => ok (has_key k members)
  | JArr items => ok (existsb (is_str k) items)
  | JStr s => ok (is_substring k s)
  | _ => throw TypeError
  end.

(** [v[k]] for a string [k]. *)
Definition subscript (v : json) (k : string) : result json :=
  match v with
  | JObj members =>
      match lookup k members with Some x => ok x | None => throw KeyError end
  | _ => throw TypeError
  end.

(** [v[0]] *)
Definition item0 (v : json) : result json :=
  match v with
  | JArr (x :: _) => ok x
  | JArr [] => throw IndexError
  | JStr s =>
      match snd (split_chars s) with
      | c :: _ => ok (JStr c)
      | [] => throw IndexError
      end
  | JObj _ => throw KeyError
  | _ => throw TypeError
  end.

(** [len(v)] *)
Definition len (v : json) : result nat :=
  match v with
  | JArr items => ok (List.length items)
  | JObj members => ok (List.length members)
  | JStr s => ok (code_points s)
  | _ => throw TypeError
  end.

Definition chars (s : string) : list json :=
  map JStr (snd (split_chars s)).

(** [iter(v)]: what a [for] loop over [v] visits. *)
Definition iter (v : json) : result (list json) :=
  match v with
  | JArr items => ok items
  | JObj members => ok (map (fun kv => JStr (fst kv)) members)
  | JStr s => ok (chars s)
  | _ => throw TypeError
  end.

(** [v[:n]]; slicing a dict raises ([TypeError] up to Python 3.11). *)
Definition slice_to (n : nat) (v : json) : result json :=
  match v with
  | JStr s => ok (JStr (take_chars n s))
  | JArr items => ok (JArr (firstn n items))
  | _ => throw TypeError
  end.

(** [v + s] for a string [s]. *)
Definition add_str (v : json) (s : string) : result json :=
  match v with
  | JStr a => ok (JStr (a ++ s))
  | _ => throw TypeError
  end.

(** [v.get(k)]: only a dict has the method. *)
Definition dict_get (v : json) (k : string) : result json :=
  match v with
  | JObj members =>
      ok (match lookup k members with Some x => x | None => JNull end)
  | _ => throw AttributeError
  end.

(** *** Statements: state, exceptions, sequencing *)

Definition M (S A : Type) : Type := S -> result A * S.

Definition ret {S A} (a : A) : M S A := fun s => (inr a, s).
Definition raise {S A} (e : exn) : M S A := fun s => (inl e, s).
Definition lift {S A} (r : result A) : M S A := fun s => (r, s).

Definition bind {S A B} (m : M S A) (k : A -> M S B) : M S B :=
  fun s =>
    match m s with
    | (inr a, s') => k a s'
    | (inl e, s') => (inl e, s')
    end.

(** [try: m except Exception as e: handler e] *)
Definition try_except {S A} (m : M S A) (handler : exn -> M S A) : M S A :=
  fun s =>
    match m s with
    | (inl e, s') => handler e s'
    | (inr a, s') => (inr a, s')
    end.

(** [try: m finally: cleanup] *)
Definition try_finally {S A} (m : M S A) (cleanup : M S unit) : M S A :=
  fun s =>
    let '(r, s') := m s in
    match cleanup s' with
    | (inr _, s'') => (r, s'')
    | (inl e, s'') => (inl e, s'')
    end.

(** [for x in xs: body] *)
Fixpoint for_each {S} (xs : list json) (body : json -> M S unit) : M S unit :=
  match xs with
  | [] => ret tt
  | x :: rest => bind (body x) (fun _ => for_each rest body)
  end.

(** *** Subprocesses *)

(** What a script does to a [subprocess.Popen] object, in the order it does
    it.  [Write] carries the request before [json.dumps]. *)
Inductive action : Type :=
| Popen (argv : list string) (cwd : option string)
| Write (request : json)      (* [proc.stdin.write(json.dumps(request) + newline)], [flush] *)
| Readline                    (* [proc.stdout.readline()] *)
| Communicate (input : string) (timeout : Z)
| Terminate                   (* [proc.terminate()] *)
| Kill                        (* [proc.kill()] *)
| Wait.                       (* [proc.wait()] *)

(** The requests written, oldest first. *)
Fixpoint sent (acts : list action) : list json :=
  match acts with
  | [] => []
  | Write q :: rest => q :: sent rest
  | _ :: rest => sent rest
  end.

Definition is_signal (a : action) : bool :=
  match a with Terminate | Kill => true | _ => false end.

Definition is_wait (a : action) : bool :=
  match a with Wait => true | _ => false end.

(** Some signal was sent to the subprocess and a wait came after it. *)
Fixpoint signalled_then_waited (acts : list action) : bool :=
  match acts with
  | [] => false
  | a :: rest =>
      (is_signal a && existsb is_wait rest) || signalled_then_waited rest
  end.

End Py.

Export Py.

Declare Scope py_scope.
Delimit Scope py_scope with py.
Notation "x <- m ;; k" := (bind m (fun x => k))
  (at level 61, m at next level, right associativity) : py_scope.
Notation "m ;; k" := (bind m (fun _ => k))
  (at level 61, right associativity) : py_scope.
Local Open Scope py_scope.

(** A double quote, for writing JSON text. *)
Definition dq : string := String (ascii_of_nat 34) EmptyString.
Definition quoted (s : string) : string := dq ++ s ++ dq.

(** ** [scripts/test_client.py]: the protocol probe *)
Module TestClient.

(** What the subprocess does at one exchange, as [send_request] sees it.
    [readline] has no timeout: a subprocess that neither answers nor closes
    its output blocks the script for ever, and such runs are not modelled. *)
Inductive reply : Type :=
| BrokenPipe            (* [proc.stdin.write]/[flush] raises *)
| Undecodable           (* the line read is not UTF-8: [decode()] raises *)
| Line (s : string).    (* the decoded and stripped line; empty at end of file *)

(** One constructor per [print] of the script, carrying the values its
    format string interpolates. *)
Inductive line : Type :=
| Banner
| Rule
| Heading (step : nat)
| InitOk
| InitFailed
| ResponseDump (response : json)
| FoundTools (n : nat)
| ToolLine (name description : json)
| EchoResult (content : json)
| CalculateResult (content : json)
| SystemInfoRetrieved
| SystemInfoBody (shown : json)
| FoundResources (n : nat)
| ResourceLine (uri name : json)
| ConfigRetrieved (name version : json)
| AllCompleted
| TestFailed (e : exn).

Record world : Type := mkWorld {
  console : list line;      (* printed so far, oldest first *)
  actions : list action;    (* done to the subprocess so far, oldest first *)
  outbox : list reply       (* what the subprocess will do at the exchanges to come *)
}.

Definition print (l : line) : M world unit :=
  fun w => (inr tt, mkWorld (console w ++ [l]) (actions w) (outbox w)).

Definition act (a : action) : M world unit :=
  fun w => (inr tt, mkWorld (console w) (actions w ++ [a]) (outbox w)).

(** The subprocess's next move; a subprocess with nothing more to say is at
    end of file. *)
Definition next_reply : M world reply :=
  fun w =>
    match outbox w with
    | [] => (inr (Line EmptyString), w)
    | r :: rest => (inr r, mkWorld (console w) (actions w) rest)
    end.

(** The [request] dict of [send_request]. *)
Definition request (request_id : Z) (method : string) (params : json) : json :=
  JObj ([("jsonrpc", JStr "2.0"); ("id", JInt request_id); ("method", JStr method)]
        ++ (if truthy params then [("params", params)] else [])).

Section WithLoads.

(** [json.loads] on a string. *)
Variable loads : string -> result json.

(** [send_request(proc, request_id, method, params)]; [params=None] is
    [JNull], and so is a returned [None]. *)
Definition send_request (request_id : Z) (method : string) (params : json)
  : M world json :=
  act (Write (request request_id method params)) ;;
  r <- next_reply ;;
  match r with
  | BrokenPipe => raise BrokenPipeError
  | Undecodable => act Readline ;; raise UnicodeDecodeError
  | Line response_line =>
      act Readline ;;
      if negb (response_line =? EmptyString)
      then lift (loads response_line)
      else ret JNull
  end.

(** [response and "result" in response] *)
Definition has_result (response : json) : result bool :=
  if truthy response then contains "result" response else ok false.

(** [json.loads(content)] on a value: only a string can be parsed. *)
Definition loads_value (content : json) : result json :=
  match content with
  | JStr s => loads s
  | _ => throw TypeError
  end.

(** [response["result"]["content"][0]["text"]] *)
Definition first_text (member : string) (response : json) : result json :=
  match subscript response "result" with
  | inl e => inl e
  | inr res =>
      match subscript res member with
      | inl e => inl e
      | inr xs =>
          match item0 xs with
          | inl e => inl e
          | inr x => subscript x "text"
          end
      end
  end.

(** 1. Initialize *)
Definition step1 : M world unit :=
  print (Heading 1) ;;
  response <- send_request 1 "initialize"
    (JObj [("capabilities", JObj []);
           ("clientInfo", JObj [("name", JStr "test-client");
                                ("version", JStr "1.0.0")])]) ;;
  passed <- lift (has_result response) ;;
  if passed then print InitOk
  else print InitFailed ;; print (ResponseDump response).

(** 2. List tools *)
Definition step2 : M world unit :=
  print (Heading 2) ;;
  response <- send_request 2 "tools/list" JNull ;;
  passed <- lift (has_result response) ;;
  if passed then
    res <- lift (subscript response "result") ;;
    tools <- lift (subscript res "tools") ;;
    n <- lift (len tools) ;;
    print (FoundTools n) ;;
    each <- lift (iter tools) ;;
    for_each each (fun tool =>
      name <- lift (subscript tool "name") ;;
      description <- lift (subscript tool "description") ;;
      print (ToolLine name description))
  else ret tt.

(** 3. Test echo tool *)
Definition step3 : M world unit :=
  print (Heading 3) ;;
  response <- send_request 3 "tools/call"
    (JObj [("name", JStr "echo");
           ("arguments", JObj [("text", JStr "Hello, MCP!")])]) ;;
  passed <- lift (has_result response) ;;
  if passed then
    content <- lift (first_text "content" response) ;;
    print (EchoResult content)
  else ret tt.

(** 4. Test calculate tool *)
Definition step4 : M world unit :=
  print (Heading 4) ;;
  response <- send_request 4 "tools/call"
    (JObj [("name", JStr "calculate");
           ("arguments", JObj [("operation", JStr "add");
                               ("a", JInt 15); ("b", JInt 27)])]) ;;
  passed <- lift (has_result response) ;;
  if passed then
    content <- lift (first_text "content" response) ;;
    print (CalculateResult content)
  else ret tt.

(** 5. Test system_info tool *)
Definition step5 : M world unit :=
  print (Heading 5) ;;
  response <- send_request 5 "tools/call"
    (JObj [("name", JStr "system_info"); ("arguments", JObj [])]) ;;
  passed <- lift (has_result response) ;;
  if passed then
    content <- lift (first_text "content" response) ;;
    print SystemInfoRetrieved ;;
    n <- lift (len content) ;;
    shown <- (if (200 <? n)%nat
              then head <- lift (slice_to 200 content) ;; lift (add_str head "...")
              else ret content) ;;
    print (SystemInfoBody shown)
  else ret tt.

(** 6. List resources *)
Definition step6 : M world unit :=
  print (Heading 6) ;;
  response <- send_request 6 "resources/list" JNull ;;
  passed <- lift (has_result response) ;;
  if passed then
    res <- lift (subscript response "result") ;;
    resources <- lift (subscript res "resources") ;;
    n <- lift (len resources) ;;
    print (FoundResources n) ;;
    each <- lift (iter resources) ;;
    for_each each (fun resource =>
      uri <- lift (subscript resource "uri") ;;
      name <- lift (subscript resource "name") ;;
      print (ResourceLine uri name))
  else ret tt.

(** 7. Test config resource *)
Definition step7 : M world unit :=
  print (Heading 7) ;;
  response <- send_request 7 "resources/read"
    (JObj [("uri", JStr "config://server")]) ;;
  passed <- lift (has_result response) ;;
  if passed then
    content <- lift (first_text "contents" response) ;;
    config <- lift (loads_value content) ;;
    name <- lift (subscript config "name") ;;
    version <- lift (subscript config "version") ;;
    print (ConfigRetrieved name version)
  else ret tt.

(** The body of the [try] block of [main]. *)
Definition main_body : M world unit :=
  print Banner ;;
  print Rule ;;
  step1 ;; step2 ;; step3 ;; step4 ;; step5 ;; step6 ;; step7 ;;
  print AllCompleted.

(** What a run leaves behind: the exit status of the interpreter, the
    console, and what was done to the subprocess. *)
Record run : Type := mkRun {
  exit_code : Z;
  printed : list line;
  done : list action
}.

(** [main()], and the interpreter's exit after it.  [spawned] is the outcome
    of [subprocess.Popen(["./mcp-server"], ...)], which stands before the
    [try]: an exception there is not caught.  An exception that leaves
    [main] ends the interpreter with status 1. *)
Definition main (spawned : result (list reply)) : run :=
  match spawned with
  | inl _ => mkRun 1 [] [Popen ["./mcp-server"] None]
  | inr script =>
      let '(r, w) :=
        try_finally
          (try_except main_body (fun e => print (TestFailed e)))
          (act Terminate ;; act Wait)
          (mkWorld [] [Popen ["./mcp-server"] None] script) in
      mkRun (match r with inr _ => 0 | inl _ => 1 end) (console w) (actions w)
  end.

End WithLoads.

End TestClient.

(** ** [scripts/verify_config.py]: the configuration auditor *)
Module VerifyConfig.

(** How the spawned server behaves under [process.communicate(input,
    timeout=5)]. *)
Inductive behaviour : Type :=
| Exits (returncode : Z) (stdout stderr : string)  (* ran to its end *)
| Hangs                                            (* still running after the timeout *)
| Fails (e : exn).                                 (* [communicate] raises [e] *)

(** The machine the script runs on. *)
Record system : Type := mkSystem {
  config_path : string;            (* [os.path.expanduser("~/.claude-code/mcp_servers.json")] *)
  script_dir : string;             (* [os.path.dirname(os.path.abspath(__file__))] *)
  path_exists : string -> bool;    (* [os.path.exists] on a path *)
  fd_exists : Z -> result bool;    (* [os.path.exists] on an integer: a file descriptor *)
  access_x : string -> bool;       (* [os.access(path, os.X_OK)] *)
  read_text : string -> result string;   (* [open(path, 'r')] and [f.read()] *)
  loads : string -> result json;         (* [json.loads] *)
  decode : string -> option string;      (* [bytes.decode()]; [None] when the bytes are not UTF-8 *)
  popen : list string -> string -> result behaviour
                                   (* [subprocess.Popen(argv, ..., cwd=cwd)] *)
}.

Inductive line : Type :=
| Banner
| Rule
| Checking
| ConfigNotFound (path : string)
| ServerKeyMissing
| ConfigFound (path : string)
| ConfiguredCommand (command_path : json)
| ExecutableNotFound (command_path : json)
| NotExecutable (command_path : json)
| ExecutableRunnable
| InvalidJson (e : exn)
| ErrorReading (e : exn)
| Testing
| ServerResponds
| ServerFailedToStart
| StderrDump (text : string)
| ServerTimedOut
| NotInCurrentDirectory
| ErrorTesting (e : exn)
| AllGood
| NextSteps
| Advice (n : nat)
| IssuesFound.

Record world : Type := mkWorld {
  console : list line;
  actions : list action
}.

Definition print (l : line) : M world unit :=
  fun w => (inr tt, mkWorld (console w ++ [l]) (actions w)).

Definition act (a : action) : M world unit :=
  fun w => (inr tt, mkWorld (console w) (actions w ++ [a])).

(** [init_request] of [test_server], without its final newline. *)
Definition init_request_line : string :=
  "{" ++ quoted "jsonrpc" ++ ": " ++ quoted "2.0" ++ ", "
      ++ quoted "id" ++ ": 1, "
      ++ quoted "method" ++ ": " ++ quoted "initialize" ++ ", "
      ++ quoted "params" ++ ": {" ++ quoted "capabilities" ++ ": {}}}".

Definition newline : string := String (ascii_of_nat 10) EmptyString.

Definition init_request : string := init_request_line ++ newline.

Section OnSystem.

Variable sys : system.

(** [os.path.exists(v)] *)
Definition os_path_exists (v : json) : result bool :=
  match v with
  | JStr s => ok (path_exists sys s)
  | JInt n => fd_exists sys n
  | JBool b => fd_exists sys (if b then 1 else 0)%Z
  | _ => throw TypeError
  end.

(** [os.access(v, os.X_OK)] *)
Definition os_access_x (v : json) : result bool :=
  match v with
  | JStr s => ok (access_x sys s)
  | _ => throw TypeError
  end.

(** [check_config_file()] *)
Definition check_config_file : M world bool :=
  print Checking ;;
  if negb (path_exists sys (config_path sys)) then
    (print (ConfigNotFound (config_path sys)) ;; ret false)
  else
    try_except
      (text <- lift (read_text sys (config_path sys)) ;;
       config <- lift (loads sys text) ;;
       present <- lift (contains "basic-mcp-server" config) ;;
       if negb present then (print ServerKeyMissing ;; ret false)
       else
         server_config <- lift (subscript config "basic-mcp-server") ;;
         command_path <- lift (dict_get server_config "command") ;;
         print (ConfigFound (config_path sys)) ;;
         print (ConfiguredCommand command_path) ;;
         found <- lift (os_path_exists command_path) ;;
         if negb found then (print (ExecutableNotFound command_path) ;; ret false)
         else
           runnable <- lift (os_access_x command_path) ;;
           if negb runnable then (print (NotExecutable command_path) ;; ret false)
           else (print ExecutableRunnable ;; ret true))
      (fun e =>
         match e with
         | JSONDecodeError => print (InvalidJson e) ;; ret false
         | _ => print (ErrorReading e) ;; ret false
         end).

(** [process.communicate(input=..., timeout=5)] *)
Definition communicate (process : behaviour) (input : string) (timeout : Z)
  : M world (Z * string * string) :=
  act (Communicate input timeout) ;;
  match process with
  | Exits returncode stdout stderr => ret (returncode, stdout, stderr)
  | Hangs => raise TimeoutExpired
  | Fails e => raise e
  end.

(** [test_server()] *)
Definition test_server : M world bool :=
  print Testing ;;
  try_except
    (act (Popen ["./mcp-server"] (Some (script_dir sys))) ;;
     process <- lift (popen sys ["./mcp-server"] (script_dir sys)) ;;
     try_except
       (out <- communicate process init_request 5 ;;
        let '(returncode, stdout, stderr) := out in
        if (returncode =? 0)%Z || negb (stdout =? EmptyString) then
          (print ServerResponds ;; ret true)
        else
          (print ServerFailedToStart ;;
           text <- lift (match decode sys stderr with
                         | Some text => ok text
                         | None => throw UnicodeDecodeError
                         end) ;;
           print (StderrDump text) ;;
           ret false))
       (fun e =>
          match e with
          | TimeoutExpired => act Kill ;; print ServerTimedOut ;; ret true
          | _ => raise e
          end))
    (fun e =>
       match e with
       | FileNotFoundError => print NotInCurrentDirectory ;; ret false
       | _ => print (ErrorTesting e) ;; ret false
       end).

(** The body of [main()]: its value is the status [sys.exit] is called
    with, 0 when it returns without calling it. *)
Definition main_body : M world Z :=
  print Banner ;;
  print Rule ;;
  config_ok <- check_config_file ;;
  server_ok <- test_server ;;
  print Rule ;;
  if config_ok && server_ok then
    (print AllGood ;; print NextSteps ;;
     print (Advice 1) ;; print (Advice 2) ;; print (Advice 3) ;;
     ret 0%Z)
  else
    (print IssuesFound ;; ret 1%Z).

Record run : Type := mkRun {
  exit_code : Z;
  printed : list line;
  done : list action
}.

(** The whole program; an exception that leaves [main] ends the interpreter
    with status 1. *)
Definition main : run :=
  let '(r, w) := main_body (mkWorld [] []) in
  mkRun (match r with inr code => code | inl _ => 1%Z end) (console w) (actions w).

End OnSystem.

End VerifyConfig.

(** ** Vocabulary for the properties *)

Module ProbeSpec.
Import TestClient.

(** The seven requests of the probe, in the order of the script. *)
Definition probe_requests : list json :=
  [ request 1 "initialize"
      (JObj [("capabilities", JObj []);
             ("clientInfo", JObj [("name", JStr "test-client");
                                  ("version", JStr "1.0.0")])]);
    request 2 "tools/list" JNull;
    request 3 "tools/call"
      (JObj [("name", JStr "echo");
             ("arguments", JObj [("text", JStr "Hello, MCP!")])]);
    request 4 "tools/call"
      (JObj [("name", JStr "calculate");
             ("arguments", JObj [("operation", JStr "add");
                                 ("a", JInt 15); ("b", JInt 27)])]);
    request 5 "tools/call"
      (JObj [("name", JStr "system_info"); ("arguments", JObj [])]);
    request 6 "resources/list" JNull;
    request 7 "resources/read" (JObj [("uri", JStr "config://server")]) ].

(** The members of a JSON object. *)
Definition members_of (v : json) : list (string * json) :=
  match v with JObj members => members | _ => [] end.

(** A computation that does nothing but print. *)
Definition prints_only {A} (m : M world A) : Prop :=
  forall w, exists r ls,
    m w = (r, mkWorld (console w ++ ls) (actions w) (outbox w)).

Section ProbeVocabulary.

Variable loads : string -> result json.

(** The response line [s] makes a step fail without raising: it is empty
    (nothing came back), or it parses to a value that is falsy or has no
    member [result]. *)
Definition fails_quietly (s : string) : Prop :=
  s = EmptyString \/
  exists v, loads s = inr v /\ has_result v = inr false.



(** What [main] does after the initialize step. *)
Definition later_steps : M world unit :=
  step2 loads ;; step3 loads ;; step4 loads ;; step5 loads ;;
  step6 loads ;; step7 loads ;; print AllCompleted.

(** [m] runs the exchanges [qs] in order, one reply of the subprocess for
    each, and stops at the first exception: what it does to the subprocess
    is to write the first [j] requests of [qs], at least one, and to read;
    it only adds to the console; when it returns it has written them all;
    and a reply that [json.loads] rejects lets it neither return nor write
    any later request. *)
Definition exchanges (qs : list json) (m : M world unit) : Prop :=
  forall w, exists r w' j ls acts,
    m w = (r, w') /\
    (1 <= j <= length qs)%nat /\
    actions w' = actions w ++ acts /\
    sent acts = firstn j qs /\
    console w' = console w ++ ls /\
    (r = inr tt -> j = length qs /\ outbox w' = skipn (length qs) (outbox w)) /\
    (forall k s e,
        nth_error (outbox w) k = Some (Line s) -> s <> EmptyString ->
        loads s = inl e -> (k < length qs)%nat ->
        r <> inr tt /\ (j <= k + 1)%nat).

End ProbeVocabulary.


(** The console reports a failure of some step. *)
Definition reports_failure (ls : list line) : bool :=
  existsb (fun l => match l with
                    | InitFailed | TestFailed _ => true
                    | _ => false
                    end) ls.

End ProbeSpec.

Module AuditSpec.
Import VerifyConfig.

(** The command paths the configuration check printed as configured. *)
Fixpoint configured_commands (ls : list line) : list json :=
  match ls with
  | [] => []
  | ConfiguredCommand c :: rest => c :: configured_commands rest
  | _ :: rest => configured_commands rest
  end.

(** The argument vectors the script spawned. *)
Fixpoint spawned (acts : list action) : list (list string) :=
  match acts with
  | [] => []
  | Popen argv _ :: rest => argv :: spawned rest
  | _ :: rest => spawned rest
  end.

(** [argv] runs exactly the executable [command_path]. *)
Definition runs_command (command_path : json) (argv : list string) : bool :=
  match command_path, argv with
  | JStr p, [a] => a =? p
  | _, _ => false
  end.

(** Every spawn of the run executes a command the configuration names. *)
Definition spawns_configured_command (r : run) : bool :=
  forallb (fun argv => existsb (fun c => runs_command c argv)
                               (configured_commands (printed r)))
          (spawned (done r)).

(** The inputs written to subprocesses through [communicate]. *)
Fixpoint inputs (acts : list action) : list string :=
  match acts with
  | [] => []
  | Communicate input _ :: rest => input :: inputs rest
  | _ :: rest => inputs rest
  end.

(** The verdict of [test_server] on a machine, whatever was printed before. *)
Definition server_ok (sys : system) : result bool :=
  fst (test_server sys (mkWorld [] [])).

Definition config_ok (sys : system) : result bool :=
  fst (check_config_file sys (mkWorld [] [])).

End AuditSpec.

(** ** Concrete inputs *)
Module Scenarios.

(** [{"result": {}}] *)
Definition result_text : string := "{" ++ quoted "result" ++ ": {}}".

(** [{"jsonrpc": "2.0", "id": 2, "error": {"code": -32601, "message": "Method not found"}}] *)
Definition error_text : string :=
  "{" ++ quoted "jsonrpc" ++ ": " ++ quoted "2.0" ++ ", "
      ++ quoted "id" ++ ": 2, "
      ++ quoted "error" ++ ": {" ++ quoted "code" ++ ": -32601, "
      ++ quoted "message" ++ ": " ++ quoted "Method not found" ++ "}}".

(** [{"result": {"content": [{"type": "text", "text": "Goodbye"}]}}] *)
Definition goodbye_text : string :=
  "{" ++ quoted "result" ++ ": {" ++ quoted "content" ++ ": [{"
      ++ quoted "type" ++ ": " ++ quoted "text" ++ ", "
      ++ quoted "text" ++ ": " ++ quoted "Goodbye" ++ "}]}}".

(** [{"result": {"tools": []}}] *)
Definition tools_text : string :=
  "{" ++ quoted "result" ++ ": {" ++ quoted "tools" ++ ": []}}".

(** [{"basic-mcp-server": {"command": "/opt/mcp/bin/server"}}] *)
Definition config_text : string :=
  "{" ++ quoted "basic-mcp-server" ++ ": {" ++ quoted "command" ++ ": "
      ++ quoted "/opt/mcp/bin/server" ++ "}}".

(** [json.loads] on the texts above and on [{}]; the scenarios use no other
    well-formed text, so every other text stands for a malformed one. *)
Definition loads (s : string) : result json :=
  if s =? "{}" then ok (JObj [])
  else if s =? result_text then ok (JObj [("result", JObj [])])
  else if s =? error_text then
    ok (JObj [("jsonrpc", JStr "2.0"); ("id", JInt 2);
              ("error", JObj [("code", JInt (-32601));
                              ("message", JStr "Method not found")])])
  else if s =? goodbye_text then
    ok (JObj [("result",
               JObj [("content",
                      JArr [JObj [("type", JStr "text");
                                  ("text", JStr "Goodbye")]])])])
  else if s =? tools_text then
    ok (JObj [("result", JObj [("tools", JArr [])])])
  else if s =? config_text then
    ok (JObj [("basic-mcp-server",
               JObj [("command", JStr "/opt/mcp/bin/server")])])
  else throw JSONDecodeError.

(** A server that answers [initialize] with an empty object and then closes
    its output. *)
Definition refusing_server : list TestClient.reply :=
  [TestClient.Line "{}"].

(** A server that completes the handshake and answers [tools/list] with a
    JSON-RPC error. *)
Definition erring_server : list TestClient.reply :=
  [TestClient.Line result_text; TestClient.Line error_text].

(** A server that completes the handshake and then writes a line that is
    not JSON. *)
Definition garbling_server : list TestClient.reply :=
  [TestClient.Line result_text; TestClient.Line "Segmentation fault"].


(** A machine whose configuration names [/opt/mcp/bin/server], present and
    executable, and on which the spawned server behaves as [b]. *)
Definition machine (b : VerifyConfig.behaviour) : VerifyConfig.system :=
  VerifyConfig.mkSystem
    "/home/dev/.claude-code/mcp_servers.json"
    "/home/dev/argocd-mcp/scripts"
    (fun p => (p =? "/home/dev/.claude-code/mcp_servers.json")
              || (p =? "/opt/mcp/bin/server"))
    (fun _ => ok false)
    (fun p => p =? "/opt/mcp/bin/server")
    (fun p => if p =? "/home/dev/.claude-code/mcp_servers.json"
              then ok config_text else throw FileNotFoundError)
    loads
    (fun bytes => Some bytes)
    (fun _ _ => ok b).

End Scenarios.

(** ** Further vocabulary for the probe *)
Module ProbeShape.
Import TestClient ProbeSpec.

(** The [id] member of a request, when it is an integer. *)
Definition request_id_of (q : json) : option Z :=
  match lookup "id" (members_of q) with
  | Some (JInt n) => Some n
  | _ => None
  end.

(** Requests that were each written and then answered by a read. *)
Fixpoint round_trips (qs : list json) : list action :=
  match qs with
  | [] => []
  | q :: rest => Write q :: Readline :: round_trips rest
  end.

(** [m] talks to the subprocess one request at a time: what it does is a
    run of round trips, followed by at most one write that was never read,
    and then only when [m] raises. *)
Definition one_at_a_time (m : M world unit) : Prop :=
  forall w, exists r w' qs tail,
    m w = (r, w') /\
    actions w' = actions w ++ round_trips qs ++ tail /\
    (tail = [] \/ exists q e, tail = [Write q] /\ r = inl e).




(** The step [step], numbered [k], prints its heading and nothing else, and
    returns, after one round trip that leaves [rest] to the subprocess. *)
Definition only_heading (k : nat) (step : M world unit)
           (w : world) (rest : list reply) : Prop :=
  step w =
    (inr tt,
     mkWorld (console w ++ [Heading k])
             (actions w ++ [Write (nth (k - 1) probe_requests JNull); Readline])
             rest).

(** The step [step], numbered [k], raises [e] right after its round trip,
    having printed its heading and nothing else. *)
Definition raises_after_heading (e : exn) (k : nat) (step : M world unit)
           (w : world) (rest : list reply) : Prop :=
  step w =
    (inl e,
     mkWorld (console w ++ [Heading k])
             (actions w ++ [Write (nth (k - 1) probe_requests JNull); Readline])
             rest).

End ProbeShape.

(** ** Further vocabulary for the auditor *)
Module AuditShape.
Import VerifyConfig AuditSpec.


(** The lines that report a failed check of the configuration. *)
Definition is_config_failure (l : line) : bool :=
  match l with
  | ConfigNotFound _ | ServerKeyMissing | ExecutableNotFound _
  | NotExecutable _ | InvalidJson _ | ErrorReading _ => true
  | _ => false
  end.

(** The two lines one of which closes the report of the whole program. *)
Definition is_summary (l : line) : bool :=
  match l with AllGood | IssuesFound => true | _ => false end.

End AuditShape.

(** ** Further concrete inputs *)
Module Listings.

(** [{"name": "echo", "description": "Echo text"}] *)
Definition echo_tool_text : string :=
  "{" ++ quoted "name" ++ ": " ++ quoted "echo" ++ ", "
      ++ quoted "description" ++ ": " ++ quoted "Echo text" ++ "}".

Definition echo_tool : json :=
  JObj [("name", JStr "echo"); ("description", JStr "Echo text")].

(** [{"name": "calculate"}] *)
Definition nameless_tool_text : string :=
  "{" ++ quoted "name" ++ ": " ++ quoted "calculate" ++ "}".

Definition undescribed_tool : json := JObj [("name", JStr "calculate")].

(** [{"result": {"tools": [echo, echo]}}] *)
Definition listing_text : string :=
  "{" ++ quoted "result" ++ ": {" ++ quoted "tools" ++ ": ["
      ++ echo_tool_text ++ ", " ++ echo_tool_text ++ "]}}".

(** [{"result": {"tools": [echo, {"name": "calculate"}, echo]}}] *)
Definition broken_listing_text : string :=
  "{" ++ quoted "result" ++ ": {" ++ quoted "tools" ++ ": ["
      ++ echo_tool_text ++ ", " ++ nameless_tool_text ++ ", "
      ++ echo_tool_text ++ "]}}".

(** [{"result": {"resources": [{"uri": "config://server", "name": "Server Configuration"}]}}] *)
Definition resources_text : string :=
  "{" ++ quoted "result" ++ ": {" ++ quoted "resources" ++ ": [{"
      ++ quoted "uri" ++ ": " ++ quoted "config://server" ++ ", "
      ++ quoted "name" ++ ": " ++ quoted "Server Configuration" ++ "}]}}".

Fixpoint dashes (n : nat) : string :=
  match n with
  | O => EmptyString
  | S m => String "-" (dashes m)
  end.

(** [{"result": {"content": [{"text": "---...-"}]}}], with 250 dashes. *)
Definition long_info_text : string :=
  "{" ++ quoted "result" ++ ": {" ++ quoted "content" ++ ": [{"
      ++ quoted "text" ++ ": " ++ quoted (dashes 250) ++ "}]}}".

(** [{"name": "basic-mcp-server", "version": "1.0.0"}] *)
Definition identity_text : string :=
  "{" ++ quoted "name" ++ ": " ++ quoted "basic-mcp-server" ++ ", "
      ++ quoted "version" ++ ": " ++ quoted "1.0.0" ++ "}".

(** A quote escaped inside a JSON string. *)
Definition bq : string := "\" ++ dq.

(** The response to [resources/read]: an object whose
    [result.contents[0].text] is the text above, its quotes escaped. *)
Definition identity_resource_text : string :=
  "{" ++ quoted "result" ++ ": {" ++ quoted "contents" ++ ": [{"
      ++ quoted "text" ++ ": " ++ dq
      ++ "{" ++ bq ++ "name" ++ bq ++ ": " ++ bq ++ "basic-mcp-server" ++ bq ++ ", "
      ++ bq ++ "version" ++ bq ++ ": " ++ bq ++ "1.0.0" ++ bq ++ "}"
      ++ dq ++ "}]}}".

(** The euro sign, U+20AC, in UTF-8: the bytes E2 82 AC. *)
Definition euro : string :=
  String (ascii_of_nat 226) (String (ascii_of_nat 130)
    (String (ascii_of_nat 172) EmptyString)).

(** A response whose [result.content[0].text] is 199 dashes and a euro
    sign. *)
Definition euro_info_text : string :=
  "{" ++ quoted "result" ++ ": {" ++ quoted "content" ++ ": [{"
      ++ quoted "text" ++ ": " ++ quoted (dashes 199 ++ euro) ++ "}]}}".

(** The JSON string ["no result"], quotes included. *)
Definition string_text : string := quoted "no result".

(** [json.loads] on the texts above; no other text is used. *)
Definition loads (s : string) : result json :=
  if s =? listing_text then
    ok (JObj [("result", JObj [("tools", JArr [echo_tool; echo_tool])])])
  else if s =? broken_listing_text then
    ok (JObj [("result",
               JObj [("tools", JArr [echo_tool; undescribed_tool; echo_tool])])])
  else if s =? resources_text then
    ok (JObj [("result",
               JObj [("resources",
                      JArr [JObj [("uri", JStr "config://server");
                                  ("name", JStr "Server Configuration")]])])])
  else if s =? long_info_text then
    ok (JObj [("result",
               JObj [("content", JArr [JObj [("text", JStr (dashes 250))]])])])
  else if s =? identity_text then
    ok (JObj [("name", JStr "basic-mcp-server"); ("version", JStr "1.0.0")])
  else if s =? identity_resource_text then
    ok (JObj [("result",
               JObj [("contents", JArr [JObj [("text", JStr identity_text)]])])])
  else if s =? euro_info_text then
    ok (JObj [("result",
               JObj [("content", JArr [JObj [("text", JStr (dashes 199 ++ euro))]])])])
  else if s =? string_text then ok (JStr "no result")
  else throw JSONDecodeError.

End Listings.

(** ** Further machines *)
Module Machines.

(** [{"basic-mcp-server": {}}] *)
Definition bare_config_text : string :=
  "{" ++ quoted "basic-mcp-server" ++ ": {}}".

(** A machine whose configuration has an entry for the server without a
    command, and on which [./mcp-server] is not there to be spawned. *)
Definition bare_machine : VerifyConfig.system :=
  VerifyConfig.mkSystem
    "/home/dev/.claude-code/mcp_servers.json"
    "/home/dev/argocd-mcp/scripts"
    (fun p => p =? "/home/dev/.claude-code/mcp_servers.json")
    (fun _ => ok false)
    (fun _ => false)
    (fun p => if p =? "/home/dev/.claude-code/mcp_servers.json"
              then ok bare_config_text else throw FileNotFoundError)
    (fun s => if s =? bare_config_text
              then ok (JObj [("basic-mcp-server", JObj [])])
              else throw JSONDecodeError)
    (fun bytes => Some bytes)
    (fun _ _ => throw FileNotFoundError).

End Machines.

(** ** Properties of the probe *)

Module ProbeFacts.
Import TestClient ProbeSpec.

Lemma sent_app (a b : list action) : sent (a ++ b) = sent a ++ sent b.
Proof.
  induction a as [|x a IH]; simpl; [reflexivity|].
  destruct x; simpl; rewrite IH; reflexivity.
Qed.

Lemma In_firstn {A} (x : A) (n : nat) (l : list A) :
  In x (firstn n l) -> In x l.
Proof.
  revert l. induction n as [|n IH]; intros [|y l]; simpl; try tauto.
  intros [->|H]; auto.
Qed.

Lemma world_eta (w : world) : mkWorld (console w) (actions w) (outbox w) = w.
Proof. destruct w; reflexivity. Qed.

Lemma prints_only_ret {A} (a : A) : prints_only (ret a).
Proof.
  intros w. exists (inr a), []. unfold ret.
  rewrite app_nil_r, world_eta. reflexivity.
Qed.

Lemma prints_only_lift {A} (r : result A) : prints_only (lift r).
Proof.
  intros w. exists r, []. unfold lift.
  rewrite app_nil_r, world_eta. reflexivity.
Qed.

Lemma prints_only_print (l : line) : prints_only (print l).
Proof. intros w. exists (inr tt), [l]. reflexivity. Qed.

Lemma prints_only_bind {A B} (m : M world A) (k : A -> M world B) :
  prints_only m -> (forall a, prints_only (k a)) -> prints_only (bind m k).
Proof.
  intros Hm Hk w. destruct (Hm w) as (r & ls & E). unfold bind. rewrite E.
  destruct r as [e|a].
  - exists (inl e), ls. reflexivity.
  - destruct (Hk a (mkWorld (console w ++ ls) (actions w) (outbox w)))
      as (r' & ls' & E').
    rewrite E'. simpl. exists r', (ls ++ ls'). rewrite app_assoc. reflexivity.
Qed.

Lemma prints_only_if {A} (b : bool) (m1 m2 : M world A) :
  prints_only m1 -> prints_only m2 -> prints_only (if b then m1 else m2).
Proof. destruct b; auto. Qed.

Lemma prints_only_for_each (xs : list json) (body : json -> M world unit) :
  (forall x, prints_only (body x)) -> prints_only (for_each xs body).
Proof.
  intros Hb. induction xs as [|x xs IH]; simpl.
  - apply prints_only_ret.
  - apply prints_only_bind; auto.
Qed.

Create HintDb probe.
#[local] Hint Resolve prints_only_ret prints_only_lift prints_only_print
  prints_only_if prints_only_for_each : probe.
#[local] Hint Extern 2 (prints_only (bind _ _)) =>
  apply prints_only_bind; [| intro] : probe.

Ltac finish_exchange :=
  repeat split; simpl; try lia; try discriminate;
  try (rewrite <- ?app_assoc; reflexivity).

Ltac first_reply :=
  match goal with
  | H : nth_error _ ?n = Some _ |- _ =>
      destruct n as [|?]; simpl in *; [| try lia]; try discriminate
  end.

Section ProbeLemmas.
Variable loads : string -> result json.

(** One step of the script: a heading, one exchange, and a report that only
    prints. *)
Lemma exchanges_step (h : line) (id : Z) (method : string) (params : json)
      (report : json -> M world unit) :
  (forall v, prints_only (report v)) ->
  exchanges loads [request id method params]
    (print h ;; response <- send_request loads id method params ;; report response).
Proof.
  intros Hk w. unfold bind, print, send_request, act, next_reply, bind. simpl.
  set (q := request id method params).
  destruct (outbox w) as [|[| |s] rest] eqn:Eo; simpl.
  - (* end of file *)
    destruct (Hk JNull (mkWorld (console w ++ [h])
               ((actions w ++ [Write q]) ++ [Readline]) []))
      as (r & ls & E).
    unfold ret. rewrite E. simpl.
    eexists r, _, 1%nat, ([h] ++ ls), [Write q; Readline]. finish_exchange.
    first_reply.
  - (* broken pipe *)
    unfold raise. eexists _, _, 1%nat, [h], [Write q]. finish_exchange.
  - (* undecodable *)
    unfold raise. eexists _, _, 1%nat, [h], [Write q; Readline]. finish_exchange.
  - (* a line *)
    destruct (negb (s =? "")) eqn:Es; simpl.
    + unfold lift. destruct (loads s) as [e|v] eqn:El; simpl.
      * eexists _, _, 1%nat, [h], [Write q; Readline]. finish_exchange.
      * destruct (Hk v (mkWorld (console w ++ [h])
               ((actions w ++ [Write q]) ++ [Readline]) rest))
          as (r & ls & E).
        rewrite E. simpl.
        eexists r, _, 1%nat, ([h] ++ ls), [Write q; Readline]. finish_exchange.
        first_reply. congruence.
    + unfold ret.
      destruct (Hk JNull (mkWorld (console w ++ [h])
               ((actions w ++ [Write q]) ++ [Readline]) rest))
        as (r & ls & E).
      rewrite E. simpl.
      eexists r, _, 1%nat, ([h] ++ ls), [Write q; Readline]. finish_exchange.
      apply negb_false_iff, String.eqb_eq in Es. first_reply. congruence.
Qed.

Lemma exchanges_seq (qs1 qs2 : list json) (m1 m2 : M world unit) :
  exchanges loads qs1 m1 -> exchanges loads qs2 m2 ->
  exchanges loads (qs1 ++ qs2) (m1 ;; m2).
Proof.
  intros H1 H2 w.
  destruct (H1 w)
    as (r1 & w1 & j1 & ls1 & a1 & E1 & Hj1 & Ha1 & Hs1 & Hc1 & Hok1 & Hbad1).
  unfold bind. rewrite E1. destruct r1 as [e|[]].
  - exists (inl e), w1, j1, ls1, a1. rewrite length_app.
    split; [reflexivity|]. split; [lia|]. split; [exact Ha1|]. split.
    { rewrite firstn_app. replace (j1 - length qs1)%nat with 0%nat by lia.
      simpl. rewrite app_nil_r. exact Hs1. }
    split; [exact Hc1|]. split; [discriminate|].
    intros k s e' Hn Hs Hl Hk. split; [discriminate|].
    destruct (Nat.lt_ge_cases k (length qs1)) as [Hlt|Hge]; [|lia].
    apply (Hbad1 k s e'); auto.
  - destruct (Hok1 eq_refl) as [-> Ho1].
    destruct (H2 w1)
      as (r2 & w2 & j2 & ls2 & a2 & E2 & Hj2 & Ha2 & Hs2 & Hc2 & Hok2 & Hbad2).
    rewrite E2. exists r2, w2, (length qs1 + j2)%nat, (ls1 ++ ls2), (a1 ++ a2).
    rewrite length_app.
    split; [reflexivity|]. split; [lia|].
    split. { rewrite Ha2, Ha1, app_assoc. reflexivity. }
    split. { rewrite firstn_app_2, sent_app, Hs2, Hs1, firstn_all. reflexivity. }
    split. { rewrite Hc2, Hc1, app_assoc. reflexivity. }
    split.
    { intros Hr. destruct (Hok2 Hr) as [-> Ho2]. split; [reflexivity|].
      rewrite Ho2, Ho1, skipn_skipn. f_equal. lia. }
    intros k s e' Hn Hs Hl Hk.
    destruct (Nat.lt_ge_cases k (length qs1)) as [Hlt|Hge].
    + destruct (Hbad1 k s e' Hn Hs Hl Hlt) as [Hne _]. contradiction.
    + destruct (Hbad2 (k - length qs1)%nat s e') as [Hne Hle]; auto; try lia.
      * rewrite Ho1, nth_error_skipn.
        replace (length qs1 + (k - length qs1))%nat with k by lia. exact Hn.
      * split; [exact Hne | lia].
Qed.

Lemma exchanges_after_print (l : line) (qs : list json) (m : M world unit) :
  exchanges loads qs m -> exchanges loads qs (print l ;; m).
Proof.
  intros H w. unfold bind, print. simpl.
  destruct (H (mkWorld (console w ++ [l]) (actions w) (outbox w)))
    as (r & w' & j & ls & a & E & Hj & Ha & Hs & Hc & Hok & Hbad).
  exists r, w', j, ([l] ++ ls), a. simpl in *.
  split; [exact E|]. split; [exact Hj|]. split; [exact Ha|]. split; [exact Hs|].
  split. { rewrite Hc, <- app_assoc. reflexivity. }
  split; assumption.
Qed.

Lemma exchanges_then_print (l : line) (qs : list json) (m : M world unit) :
  exchanges loads qs m -> exchanges loads qs (m ;; print l).
Proof.
  intros H w. unfold bind.
  destruct (H w) as (r & w' & j & ls & a & E & Hj & Ha & Hs & Hc & Hok & Hbad).
  rewrite E. destruct r as [e|[]].
  - exists (inl e), w', j, ls, a.
    split; [reflexivity|]. split; [exact Hj|]. split; [exact Ha|].
    split; [exact Hs|]. split; [exact Hc|]. split; [discriminate | exact Hbad].
  - destruct (Hok eq_refl) as [-> Ho].
    exists (inr tt), (mkWorld (console w' ++ [l]) (actions w') (outbox w')),
      (length qs), (ls ++ [l]), a. simpl.
    split; [reflexivity|]. split; [lia|]. split; [exact Ha|]. split; [exact Hs|].
    split. { rewrite Hc, app_assoc. reflexivity. }
    split. { intros _. split; [reflexivity | exact Ho]. }
    intros k s e Hn Hne Hl Hk.
    destruct (Hbad k s e Hn Hne Hl Hk) as [Habs _]. exfalso. apply Habs. reflexivity.
Qed.

Ltac one_step := apply exchanges_step; intro; auto 20 with probe.

Lemma step1_exchanges : exchanges loads (firstn 1 probe_requests) (step1 loads).
Proof. one_step. Qed.

Lemma step2_exchanges :
  exchanges loads (firstn 1 (skipn 1 probe_requests)) (step2 loads).
Proof. one_step. Qed.

Lemma step3_exchanges :
  exchanges loads (firstn 1 (skipn 2 probe_requests)) (step3 loads).
Proof. one_step. Qed.

Lemma step4_exchanges :
  exchanges loads (firstn 1 (skipn 3 probe_requests)) (step4 loads).
Proof. one_step. Qed.

Lemma step5_exchanges :
  exchanges loads (firstn 1 (skipn 4 probe_requests)) (step5 loads).
Proof. one_step. Qed.

Lemma step6_exchanges :
  exchanges loads (firstn 1 (skipn 5 probe_requests)) (step6 loads).
Proof. one_step. Qed.

Lemma step7_exchanges :
  exchanges loads (firstn 1 (skipn 6 probe_requests)) (step7 loads).
Proof. one_step. Qed.

(** Steps 2 to 7 and the closing line. *)
Lemma later_steps_exchange :
  exchanges loads (skipn 1 probe_requests) (later_steps loads).
Proof.
  unfold later_steps.
  apply (exchanges_seq (firstn 1 (skipn 1 probe_requests)) (skipn 2 probe_requests));
    [apply step2_exchanges|].
  apply (exchanges_seq (firstn 1 (skipn 2 probe_requests)) (skipn 3 probe_requests));
    [apply step3_exchanges|].
  apply (exchanges_seq (firstn 1 (skipn 3 probe_requests)) (skipn 4 probe_requests));
    [apply step4_exchanges|].
  apply (exchanges_seq (firstn 1 (skipn 4 probe_requests)) (skipn 5 probe_requests));
    [apply step5_exchanges|].
  apply (exchanges_seq (firstn 1 (skipn 5 probe_requests)) (skipn 6 probe_requests));
    [apply step6_exchanges|].
  apply exchanges_then_print, step7_exchanges.
Qed.

Lemma main_body_exchanges : exchanges loads probe_requests (main_body loads).
Proof.
  unfold main_body. do 2 apply exchanges_after_print.
  apply (exchanges_seq (firstn 1 probe_requests) (skipn 1 probe_requests));
    [apply step1_exchanges | apply later_steps_exchange].
Qed.

(** [main] once the server is spawned, from what its [try] block does. *)
Lemma main_of_body (script : list reply) (r : result unit) (w' : world) :
  main_body loads (mkWorld [] [Popen ["./mcp-server"] None] script) = (r, w') ->
  main loads (inr script) =
    mkRun 0
      (console w' ++ match r with inl e => [TestFailed e] | inr _ => [] end)
      (actions w' ++ [Terminate; Wait]).
Proof.
  intros E. unfold main, try_finally, try_except. rewrite E.
  destruct r as [e|[]]; simpl; rewrite ?app_nil_r, <- ?app_assoc; reflexivity.
Qed.


(** The shape of every run of the probe once the server is spawned. *)
Lemma main_shape (script : list reply) :
  exists (r : result unit) (acts : list action) (ls : list line) (j : nat),
    main loads (inr script) =
      mkRun 0
        (ls ++ match r with inl e => [TestFailed e] | inr _ => [] end)
        (Popen ["./mcp-server"] None :: acts ++ [Terminate; Wait]) /\
    (1 <= j <= 7)%nat /\
    sent acts = firstn j probe_requests /\
    (r = inr tt -> j = 7%nat) /\
    (forall k s e,
        nth_error script k = Some (Line s) -> s <> EmptyString ->
        loads s = inl e -> (k < 7)%nat ->
        r <> inr tt /\ (j <= k + 1)%nat).
Proof.
  destruct (main_body_exchanges (mkWorld [] [Popen ["./mcp-server"] None] script))
    as (r & w' & j & ls & acts & E & Hj & Ha & Hs & Hc & Hok & Hbad).
  simpl in Ha, Hc, Hbad.
  exists r, acts, ls, j.
  split. { rewrite (main_of_body _ _ _ E), Hc, Ha. reflexivity. }
  split; [exact Hj|]. split; [exact Hs|].
  split. { intros Hr. apply Hok in Hr. tauto. }
  exact Hbad.
Qed.

Lemma sent_run (acts : list action) :
  sent (Popen ["./mcp-server"] None :: acts ++ [Terminate; Wait]) = sent acts.
Proof. simpl. rewrite sent_app. simpl. apply app_nil_r. Qed.

Lemma In_Write_sent (q : json) (acts : list action) :
  In (Write q) acts -> In q (sent acts).
Proof.
  induction acts as [|a acts IH]; simpl; [tauto|].
  intros [->|H]; [left; reflexivity|].
  destruct a; simpl; auto.
Qed.


End ProbeLemmas.




(** C5, as the code has it: a response line that [json.loads] rejects, at
    any of the seven steps, raises out of [send_request] to the one handler
    around the whole sequence.  No request after that step's is sent, the
    console ends with the handler's line, and the subprocess is terminated
    and waited on. *)
Theorem unparsable_reply_aborts
    (loads : string -> result json) (script : list reply)
    (k : nat) (s : string) (e : exn) :
  nth_error script k = Some (Line s) -> s <> EmptyString ->
  loads s = inl e -> (k < 7)%nat ->
  (length (sent (done (main loads (inr script)))) <= k + 1)%nat /\
  (exists ls e', printed (main loads (inr script)) = ls ++ [TestFailed e']) /\
  (exists acts, done (main loads (inr script)) = acts ++ [Terminate; Wait]).
Proof.
  intros Hn Hs Hl Hk.
  destruct (main_shape loads script) as (r & acts & ls & j & Em & Hj & Hsent & _ & Hbad).
  destruct (Hbad k s e Hn Hs Hl Hk) as [Hr Hjk].
  rewrite Em. simpl. rewrite sent_app, Hsent. simpl. rewrite app_nil_r.
  split.
  { rewrite length_firstn. simpl. lia. }
  split.
  { destruct r as [e'|[]]; [|contradiction]. exists ls, e'. reflexivity. }
  exists (Popen ["./mcp-server"] None :: acts). reflexivity.
Qed.

(** C5 on a run: the second line the server writes is not JSON. *)
Lemma unparsable_reply_aborts_witness :
  nth_error Scenarios.garbling_server 1 = Some (Line "Segmentation fault") /\
  "Segmentation fault" <> EmptyString /\
  Scenarios.loads "Segmentation fault" = inl JSONDecodeError /\
  (1 < 7)%nat /\
  (length (sent (done (main Scenarios.loads (inr Scenarios.garbling_server))))
   <= 1 + 1)%nat /\
  (exists ls e', printed (main Scenarios.loads (inr Scenarios.garbling_server))
                 = ls ++ [TestFailed e']) /\
  (exists acts, done (main Scenarios.loads (inr Scenarios.garbling_server))
                = acts ++ [Terminate; Wait]).
Proof.
  split; [reflexivity|]. split; [discriminate|]. split; [reflexivity|].
  split; [lia|].
  apply (unparsable_reply_aborts Scenarios.loads Scenarios.garbling_server 1
           "Segmentation fault" JSONDecodeError);
    [reflexivity | discriminate | reflexivity | lia].
Defined.

(** C5 as the specification states it fails: the second response is not
    JSON; the probe stops there, and the requests of steps 3 to 7 are never
    sent. *)
Lemma unparsable_reply_stops_probe :
  printed (main Scenarios.loads (inr Scenarios.garbling_server))
  = [Banner; Rule; Heading 1; InitOk; Heading 2; TestFailed JSONDecodeError] /\
  sent (done (main Scenarios.loads (inr Scenarios.garbling_server)))
  = firstn 2 probe_requests.
Proof. split; vm_compute; reflexivity. Qed.

(** C4 on a failing input: the server answers [tools/list] with a JSON-RPC
    error.  Nothing on the console reports a failure, for that step or any
    later one, and the run ends with the line that all tests completed
    successfully. *)
Lemma later_step_failure_is_silent :
  printed (main Scenarios.loads (inr Scenarios.erring_server))
  = [Banner; Rule; Heading 1; InitOk; Heading 2; Heading 3; Heading 4;
     Heading 5; Heading 6; Heading 7; AllCompleted] /\
  reports_failure (printed (main Scenarios.loads (inr Scenarios.erring_server)))
  = false.
Proof. split; vm_compute; reflexivity. Qed.




(** C6, as the code has it: every request the probe writes is a JSON
    object whose version member is named [jsonrpc] and has the value
    ["2.0"], with an integer [id] and a string [method]; a [params] member,
    when there is one, holds a truthy value.  No member is named
    [protocolVersion]. *)
Theorem requests_carry_jsonrpc
    (loads : string -> result json) (spawned : result (list reply)) (q : json) :
  In (Write q) (done (main loads spawned)) ->
  exists (members : list (string * json)) (id : Z) (method : string),
    q = JObj members /\
    lookup "jsonrpc" members = Some (JStr "2.0") /\
    lookup "id" members = Some (JInt id) /\
    lookup "method" members = Some (JStr method) /\
    (forall p, lookup "params" members = Some p -> truthy p = true) /\
    lookup "protocolVersion" members = None.
Proof.
  intros Hin. destruct spawned as [e|script].
  - simpl in Hin. destruct Hin as [Hin|[]]. discriminate.
  - destruct (main_shape loads script) as (r & acts & ls & j & Em & _ & Hsent & _).
    rewrite Em in Hin. apply In_Write_sent in Hin.
    cbn [done] in Hin. rewrite sent_run, Hsent in Hin.
    apply In_firstn in Hin. simpl in Hin.
    repeat (destruct Hin as [<-|Hin];
            [eexists _, _, _; repeat split; try reflexivity;
             (intros p Hp; simpl in Hp; try discriminate;
              injection Hp as <-; reflexivity) |]).
    destruct Hin.
Qed.

(** C6 on a run: the [tools/list] request of a probe. *)
Lemma requests_carry_jsonrpc_witness :
  In (Write (request 2 "tools/list" JNull))
     (done (main Scenarios.loads (inr Scenarios.refusing_server))) /\
  exists (members : list (string * json)) (id : Z) (method : string),
    request 2 "tools/list" JNull = JObj members /\
    lookup "jsonrpc" members = Some (JStr "2.0") /\
    lookup "id" members = Some (JInt id) /\
    lookup "method" members = Some (JStr method) /\
    (forall p, lookup "params" members = Some p -> truthy p = true) /\
    lookup "protocolVersion" members = None.
Proof.
  assert (H : In (Write (request 2 "tools/list" JNull))
                 (done (main Scenarios.loads (inr Scenarios.refusing_server)))).
  { vm_compute. do 3 right. left. reflexivity. }
  split; [exact H|].
  exact (requests_carry_jsonrpc Scenarios.loads (inr Scenarios.refusing_server) _ H).
Defined.

(** C6 as the specification states it fails: none of the seven requests of
    a run has a member named [protocolVersion]. *)
Lemma no_protocolVersion_member :
  map (fun q => has_key "protocolVersion" (members_of q))
      (sent (done (main Scenarios.loads (inr Scenarios.refusing_server))))
  = [false; false; false; false; false; false; false] /\
  map (fun q => lookup "jsonrpc" (members_of q))
      (sent (done (main Scenarios.loads (inr Scenarios.refusing_server))))
  = [Some (JStr "2.0"); Some (JStr "2.0"); Some (JStr "2.0"); Some (JStr "2.0");
     Some (JStr "2.0"); Some (JStr "2.0"); Some (JStr "2.0")].
Proof. split; vm_compute; reflexivity. Qed.

(** C10: [send_request] writes the request it builds, and that request has
    a [params] member exactly when the [params] argument is truthy, holding
    the argument.  An empty object gives the same request as no argument at
    all: one without a [params] member. *)
Theorem params_member_iff_truthy
    (loads : string -> result json)
    (request_id : Z) (method : string) (params : json) (w : world) :
  (exists more,
      actions (snd (send_request loads request_id method params w))
      = actions w ++ Write (request request_id method params) :: more) /\
  has_key "params" (members_of (request request_id method params))
  = truthy params /\
  lookup "params" (members_of (request request_id method params))
  = (if truthy params then Some params else None) /\
  request request_id method (JObj []) = request request_id method JNull /\
  has_key "params" (members_of (request request_id method (JObj []))) = false.
Proof.
  split.
  { unfold send_request, bind, act, next_reply. simpl.
    destruct (outbox w) as [|[| |s] rest]; simpl.
    - exists [Readline]. rewrite <- app_assoc. reflexivity.
    - exists []. reflexivity.
    - exists [Readline]. rewrite <- app_assoc. reflexivity.
    - exists [Readline].
      destruct (negb (s =? "")); simpl; rewrite <- app_assoc; reflexivity. }
  unfold request, has_key. simpl.
  destruct (truthy params); simpl; repeat split; reflexivity.
Qed.

End ProbeFacts.

(** ** Properties of the auditor *)

Module AuditFacts.
Import VerifyConfig AuditSpec.

(** Case analysis on the innermost value a computation branches on. *)
Ltac branch :=
  match goal with
  | |- context [match ?x with _ => _ end] =>
      lazymatch x with
      | context [match _ with _ => _ end] => fail
      | _ => destruct x eqn:?; simpl
      end
  end.

Section AuditLemmas.
Variable sys : system.

(** [check_config_file] returns a verdict, touches no subprocess and only
    adds to the console. *)
Lemma check_config_file_returns (w : world) :
  exists b ls,
    check_config_file sys w = (inr b, mkWorld (console w ++ ls) (actions w)).
Proof.
  unfold check_config_file, try_except, bind, print, lift, ret. simpl.
  repeat branch;
    eexists _, _; rewrite <- ?app_assoc; reflexivity.
Qed.

Lemma check_config_file_verdict (w w' : world) :
  fst (check_config_file sys w) = fst (check_config_file sys w').
Proof.
  unfold check_config_file, try_except, bind, print, lift, ret. simpl.
  repeat branch; reflexivity.
Qed.

(** [test_server] returns a verdict; it spawns [./mcp-server] in the
    directory of the script and does at most one [communicate], with the
    initialize request, and one [kill]. *)
Lemma test_server_returns (w : world) :
  exists b ls tail,
    test_server sys w =
      (inr b,
       mkWorld (console w ++ ls)
               (actions w ++ Popen ["./mcp-server"] (Some (script_dir sys)) :: tail)) /\
    tail = match popen sys ["./mcp-server"] (script_dir sys) with
           | inl _ => []
           | inr Hangs | inr (Fails TimeoutExpired) => [Communicate init_request 5; Kill]
           | inr _ => [Communicate init_request 5]
           end.
Proof.
  unfold test_server, communicate, try_except, bind, print, act, lift, ret, raise.
  simpl.
  repeat branch;
    eexists _, _, _; rewrite <- ?app_assoc; simpl; split; reflexivity.
Qed.

Lemma test_server_verdict (w w' : world) :
  fst (test_server sys w) = fst (test_server sys w').
Proof.
  unfold test_server, communicate, try_except, bind, print, act, lift, ret, raise.
  simpl.
  repeat branch; reflexivity.
Qed.

(** The verdict of [test_server] by what the spawned server does. *)
Lemma test_server_on (b : behaviour) (w : world) :
  popen sys ["./mcp-server"] (script_dir sys) = inr b ->
  fst (test_server sys w) =
    inr match b with
        | Hangs | Fails TimeoutExpired => true
        | Fails _ => false
        | Exits returncode stdout _ =>
            (returncode =? 0)%Z || negb (stdout =? EmptyString)
        end.
Proof.
  intros Hp.
  unfold test_server, communicate, try_except, bind, print, act, lift, ret, raise.
  simpl. rewrite Hp. simpl.
  destruct b as [returncode stdout stderr| |e]; simpl.
  - destruct ((returncode =? 0)%Z || negb (stdout =? "")); simpl; [reflexivity|].
    repeat branch; reflexivity.
  - reflexivity.
  - destruct e; reflexivity.
Qed.

(** The program ends with status 0 or 1, and what it did to subprocesses
    is what [test_server] did. *)
Lemma main_run :
  exists ls tail,
    main sys =
      mkRun (match config_ok sys, server_ok sys with
             | inr true, inr true => 0
             | _, _ => 1
             end)%Z
            ls
            (Popen ["./mcp-server"] (Some (script_dir sys)) :: tail) /\
    tail = match popen sys ["./mcp-server"] (script_dir sys) with
           | inl _ => []
           | inr Hangs | inr (Fails TimeoutExpired) => [Communicate init_request 5; Kill]
           | inr _ => [Communicate init_request 5]
           end.
Proof.
  unfold main, main_body, config_ok, server_ok.
  unfold bind at 1 2 3. simpl.
  set (w0 := mkWorld [Banner; Rule] []).
  rewrite (check_config_file_verdict (mkWorld [] []) w0).
  destruct (check_config_file_returns w0) as (cb & ls1 & E1).
  rewrite E1. simpl.
  set (w1 := mkWorld _ _).
  rewrite (test_server_verdict (mkWorld [] []) w1).
  destruct (test_server_returns w1) as (sb & ls2 & tail & E2 & Et).
  unfold bind at 1. rewrite E2. simpl.
  subst tail.
  destruct cb, sb; simpl; eexists _, _; split; reflexivity.
Qed.

End AuditLemmas.

(** C2, as the code has it: a timeout of the handshake is a pass; a server
    that exits without output is a failure exactly when its exit status is
    not 0; a server that exits with any output is a pass. *)
Theorem handshake_verdict (sys : system) (w : world) (b : behaviour) :
  popen sys ["./mcp-server"] (script_dir sys) = inr b ->
  fst (test_server sys w) =
    inr match b with
        | Hangs => true
        | Exits returncode EmptyString _ => (returncode =? 0)%Z
        | Exits _ _ _ => true
        | Fails TimeoutExpired => true
        | Fails _ => false
        end.
Proof.
  intros Hp. rewrite (test_server_on sys b w Hp).
  destruct b as [returncode [|c stdout] stderr| |e]; simpl; try reflexivity.
  - rewrite orb_false_r. reflexivity.
  - rewrite orb_true_r. reflexivity.
Qed.

(** C2 on a run: the server exits at once with status 3 and no output. *)
Lemma handshake_verdict_witness :
  popen (Scenarios.machine (Exits 3 EmptyString "boom")) ["./mcp-server"]
        (script_dir (Scenarios.machine (Exits 3 EmptyString "boom")))
  = inr (Exits 3 EmptyString "boom") /\
  fst (test_server (Scenarios.machine (Exits 3 EmptyString "boom")) (mkWorld [] []))
  = inr (3 =? 0)%Z.
Proof.
  split; [reflexivity|].
  exact (handshake_verdict (Scenarios.machine (Exits 3 EmptyString "boom"))
           (mkWorld [] []) (Exits 3 EmptyString "boom") eq_refl).
Defined.

(** C2 as the specification states it fails: the server exits at once with
    status 0 and no output, and the check passes. *)
Lemma silent_clean_exit_passes :
  server_ok (Scenarios.machine (Exits 0 EmptyString EmptyString)) = inr true /\
  exit_code (main (Scenarios.machine (Exits 0 EmptyString EmptyString))) = 0%Z.
Proof. split; vm_compute; reflexivity. Qed.

(** C3, as the code has it: the handshake spawns the fixed relative path
    [./mcp-server] with the directory of the script as working directory,
    whatever the configuration says, and when the spawn succeeds it sends
    that subprocess the one initialize request; nothing else is spawned. *)
Theorem handshake_spawns_fixed_path (sys : system) :
  spawned (done (main sys)) = [["./mcp-server"]] /\
  In (Popen ["./mcp-server"] (Some (script_dir sys))) (done (main sys)) /\
  inputs (done (main sys))
  = (match popen sys ["./mcp-server"] (script_dir sys) with
     | inr _ => [init_request]
     | inl _ => []
     end) /\
  (forall config_path path_exists fd_exists access_x read_text loads,
      done (main (mkSystem config_path (script_dir sys) path_exists fd_exists
                           access_x read_text loads (decode sys) (popen sys)))
      = done (main sys)).
Proof.
  destruct (main_run sys) as (ls & tail & Em & Et).
  split; [|split; [|split]].
  - rewrite Em. simpl. subst tail.
    destruct (popen sys _ _) as [e|[rc out err| |[]]]; reflexivity.
  - rewrite Em. simpl. left. reflexivity.
  - rewrite Em. simpl. subst tail.
    destruct (popen sys _ _) as [e|[rc out err| |[]]]; reflexivity.
  - intros cp pe fe ax rt ld.
    destruct (main_run (mkSystem cp (script_dir sys) pe fe ax rt ld
                                 (decode sys) (popen sys)))
      as (ls' & tail' & Em' & Et').
    rewrite Em, Em'. simpl in *. subst. reflexivity.
Qed.

(** C3 as the specification states it fails: the configuration names
    [/opt/mcp/bin/server], which exists and is executable, and the
    handshake spawns [./mcp-server]. *)
Lemma configured_command_not_spawned :
  configured_commands
    (printed (main (Scenarios.machine (Exits 0 "ready" EmptyString))))
  = [JStr "/opt/mcp/bin/server"] /\
  config_ok (Scenarios.machine (Exits 0 "ready" EmptyString)) = inr true /\
  spawned (done (main (Scenarios.machine (Exits 0 "ready" EmptyString))))
  = [["./mcp-server"]] /\
  spawns_configured_command
    (main (Scenarios.machine (Exits 0 "ready" EmptyString)))
  = false.
Proof. repeat split; vm_compute; reflexivity. Qed.

End AuditFacts.

(** ** Properties of both scripts *)

Module HarnessFacts.
Import ProbeSpec AuditSpec.

Lemma released_at_end (acts : list action) :
  signalled_then_waited (acts ++ [Terminate; Wait]) = true.
Proof.
  induction acts as [|a acts IH]; simpl; [reflexivity|].
  rewrite IH. apply orb_true_r.
Qed.

(** C7: the configuration check and the handshake each return a verdict,
    and the auditor exits with status 0 when both verdicts are passes and
    with status 1 otherwise.  The probe, once its server is spawned, exits
    with status 0 whatever the server answers, also when its console
    reports a failure. *)
Theorem exit_codes
    (sys : VerifyConfig.system)
    (loads : string -> result json) (script : list TestClient.reply) :
  (exists config_passes server_passes : bool,
      config_ok sys = inr config_passes /\
      server_ok sys = inr server_passes /\
      VerifyConfig.exit_code (VerifyConfig.main sys)
      = (if config_passes && server_passes then 0 else 1)%Z) /\
  (VerifyConfig.exit_code (VerifyConfig.main sys) = 0%Z <->
   config_ok sys = inr true /\ server_ok sys = inr true) /\
  TestClient.exit_code (TestClient.main loads (inr script)) = 0%Z.
Proof.
  destruct (AuditFacts.main_run sys) as (ls & tail & Em & _).
  destruct (AuditFacts.check_config_file_returns sys (VerifyConfig.mkWorld [] []))
    as (cb & ls1 & Ec).
  destruct (AuditFacts.test_server_returns sys (VerifyConfig.mkWorld [] []))
    as (sb & ls2 & tail2 & Es & _).
  assert (Hc : config_ok sys = inr cb) by (unfold config_ok; rewrite Ec; reflexivity).
  assert (Hs : server_ok sys = inr sb) by (unfold server_ok; rewrite Es; reflexivity).
  rewrite Em, Hc, Hs. cbn [VerifyConfig.exit_code].
  split; [|split].
  - exists cb, sb. destruct cb, sb; repeat split; reflexivity.
  - destruct cb, sb; split; try discriminate; try tauto;
      intros [H1 H2]; discriminate.
  - destruct (ProbeFacts.main_shape loads script) as (r & acts & pl & j & Ep & _).
    rewrite Ep. reflexivity.
Qed.

(** C9, as the code has it: the probe, on every path after the spawn, ends
    by sending its subprocess a termination signal and then waiting for it.
    The auditor's handshake sends no signal to a server that ran to its end
    under [communicate], and sends a kill signal to one that timed out. *)
Theorem subprocess_release
    (loads : string -> result json) (script : list TestClient.reply)
    (sys : VerifyConfig.system) :
  (exists acts,
      TestClient.done (TestClient.main loads (inr script))
      = Popen ["./mcp-server"] None :: acts ++ [Terminate; Wait]) /\
  signalled_then_waited (TestClient.done (TestClient.main loads (inr script)))
  = true /\
  match VerifyConfig.popen sys ["./mcp-server"] (VerifyConfig.script_dir sys) with
  | inr (VerifyConfig.Exits _ _ _) =>
      VerifyConfig.done (VerifyConfig.main sys)
      = [Popen ["./mcp-server"] (Some (VerifyConfig.script_dir sys));
         Communicate VerifyConfig.init_request 5]
  | inr VerifyConfig.Hangs => In Kill (VerifyConfig.done (VerifyConfig.main sys))
  | _ => True
  end.
Proof.
  destruct (ProbeFacts.main_shape loads script) as (r & acts & pl & j & Ep & _).
  rewrite Ep. cbn [TestClient.done].
  split; [exists acts; reflexivity|].
  split.
  { change (Popen ["./mcp-server"] None :: acts ++ [Terminate; Wait])
      with ((Popen ["./mcp-server"] None :: acts) ++ [Terminate; Wait]).
    apply released_at_end. }
  destruct (AuditFacts.main_run sys) as (ls & tail & Em & Et).
  rewrite Em. cbn [VerifyConfig.done]. subst tail.
  destruct (VerifyConfig.popen sys _ _) as [e|[rc out err| |e]]; simpl; auto.
Qed.

(** C9 as the specification states it fails: the auditor's server answers
    and exits; the handshake passes, and no signal was sent to it. *)
Lemma handshake_sends_no_signal :
  VerifyConfig.done
    (VerifyConfig.main (Scenarios.machine (VerifyConfig.Exits 0 "ready" EmptyString)))
  = [Popen ["./mcp-server"] (Some "/home/dev/argocd-mcp/scripts");
     Communicate VerifyConfig.init_request 5] /\
  existsb is_signal
    (VerifyConfig.done
       (VerifyConfig.main (Scenarios.machine (VerifyConfig.Exits 0 "ready" EmptyString))))
  = false /\
  signalled_then_waited
    (VerifyConfig.done
       (VerifyConfig.main (Scenarios.machine (VerifyConfig.Exits 0 "ready" EmptyString))))
  = false.
Proof. repeat split; vm_compute; reflexivity. Qed.

End HarnessFacts.

(** ** Further properties of the probe *)

Module ProbeExtras.
Import TestClient ProbeSpec ProbeShape ProbeFacts.

Lemma round_trips_app (a b : list json) :
  round_trips (a ++ b) = round_trips a ++ round_trips b.
Proof. induction a as [|q a IH]; simpl; [reflexivity | rewrite IH; reflexivity]. Qed.

#[local] Hint Resolve prints_only_ret prints_only_lift prints_only_print
  prints_only_if prints_only_for_each : probe.
#[local] Hint Extern 2 (prints_only (bind _ _)) =>
  apply prints_only_bind; [| intro] : probe.

Ltac talked :=
  split; [reflexivity|]; simpl; rewrite <- ?app_assoc;
  split; [reflexivity | eauto 6].

Section ProbeTalk.
Variable loads : string -> result json.

Lemma one_at_a_time_step (h : line) (id : Z) (method : string) (params : json)
      (report : json -> M world unit) :
  (forall v, prints_only (report v)) ->
  one_at_a_time
    (print h ;; response <- send_request loads id method params ;; report response).
Proof.
  intros Hk w. unfold bind, print, send_request, act, next_reply, bind. simpl.
  set (q := request id method params).
  destruct (outbox w) as [|[| |s] rest] eqn:Eo; simpl.
  - destruct (Hk JNull (mkWorld (console w ++ [h])
               ((actions w ++ [Write q]) ++ [Readline]) []))
      as (r & ls & E).
    unfold ret. rewrite E. simpl.
    eexists r, _, [q], []. talked.
  - unfold raise. eexists _, _, [], [Write q]. talked.
  - unfold raise. eexists _, _, [q], []. talked.
  - destruct (negb (s =? "")); simpl.
    + unfold lift. destruct (loads s) as [e|v]; simpl.
      * eexists _, _, [q], []. talked.
      * destruct (Hk v (mkWorld (console w ++ [h])
               ((actions w ++ [Write q]) ++ [Readline]) rest))
          as (r & ls & E).
        rewrite E. simpl.
        eexists r, _, [q], []. talked.
    + unfold ret.
      destruct (Hk JNull (mkWorld (console w ++ [h])
               ((actions w ++ [Write q]) ++ [Readline]) rest))
        as (r & ls & E).
      rewrite E. simpl.
      eexists r, _, [q], []. talked.
Qed.

Lemma one_at_a_time_seq (m1 m2 : M world unit) :
  one_at_a_time m1 -> one_at_a_time m2 -> one_at_a_time (m1 ;; m2).
Proof.
  intros H1 H2 w.
  destruct (H1 w) as (r1 & w1 & qs1 & t1 & E1 & Ha1 & Ht1).
  unfold bind. rewrite E1. destruct r1 as [e|[]].
  - exists (inl e), w1, qs1, t1. auto.
  - destruct Ht1 as [->|(q & e & _ & Habs)]; [|discriminate].
    destruct (H2 w1) as (r2 & w2 & qs2 & t2 & E2 & Ha2 & Ht2).
    rewrite E2. exists r2, w2, (qs1 ++ qs2), t2.
    split; [reflexivity|]. split; [|exact Ht2].
    rewrite Ha2, Ha1, round_trips_app, app_nil_r, <- !app_assoc. reflexivity.
Qed.

Lemma one_at_a_time_print (l : line) : one_at_a_time (print l).
Proof.
  intros w. exists (inr tt), (mkWorld (console w ++ [l]) (actions w) (outbox w)), [], [].
  simpl. rewrite app_nil_r. auto.
Qed.

Ltac talk_step := apply one_at_a_time_step; intro; auto 20 with probe.

Lemma main_body_one_at_a_time : one_at_a_time (main_body loads).
Proof.
  unfold main_body.
  repeat (apply one_at_a_time_seq; [first [apply one_at_a_time_print | talk_step] |]).
  apply one_at_a_time_print.
Qed.

End ProbeTalk.

Lemma no_signal_in_round_trips (qs : list json) :
  filter is_signal (round_trips qs) = [] /\ filter is_wait (round_trips qs) = [].
Proof. induction qs as [|q qs [IH1 IH2]]; simpl; auto. Qed.

(** X1: the probe never has two requests outstanding, and it releases its
    subprocess exactly once.  After the spawn, what it does to the
    subprocess is a run of round trips (a request written, then a line
    read), then at most one write that was never read, then one terminate
    and one wait, in this order and as the last two actions. *)
Theorem probe_talks_one_at_a_time
    (loads : string -> result json) (script : list reply) :
  exists qs tail,
    done (main loads (inr script))
    = Popen ["./mcp-server"] None :: round_trips qs ++ tail ++ [Terminate; Wait] /\
    (tail = [] \/ exists q, tail = [Write q]) /\
    filter is_signal (done (main loads (inr script))) = [Terminate] /\
    filter is_wait (done (main loads (inr script))) = [Wait].
Proof.
  destruct (main_body_one_at_a_time loads
              (mkWorld [] [Popen ["./mcp-server"] None] script))
    as (r & w' & qs & tail & E & Ha & Ht).
  rewrite (main_of_body loads _ _ _ E). cbn [done]. rewrite Ha. simpl.
  exists qs, tail.
  assert (Ht' : tail = [] \/ exists q, tail = [Write q]).
  { destruct Ht as [->|(q & e & -> & _)]; eauto. }
  split; [rewrite <- !app_assoc; reflexivity|]. split; [exact Ht'|].
  destruct (no_signal_in_round_trips qs) as [Hs Hw].
  rewrite <- !app_assoc, !filter_app, Hs, Hw.
  destruct Ht' as [->|(q & ->)]; split; reflexivity.
Qed.

(** X2: the requests a run writes carry the ids 1, 2, 3, ... in this
    order: ids are distinct, start at 1 and grow by one, and there are
    between one and seven of them. *)
Theorem request_ids_count_from_one
    (loads : string -> result json) (script : list reply) :
  exists j,
    (1 <= j <= 7)%nat /\
    map request_id_of (sent (done (main loads (inr script))))
    = map (fun k => Some (Z.of_nat k)) (seq 1 j).
Proof.
  destruct (main_shape loads script) as (r & acts & ls & j & Em & Hj & Hsent & _).
  exists j. split; [exact Hj|].
  rewrite Em. cbn [done]. rewrite sent_run, Hsent.
  do 8 (destruct j as [|j]; [try lia; reflexivity|]). lia.
Qed.

Section ProbeEnds.
Variable loads : string -> result json.

(** A sequence that ends with [print l] has [l] as its last line when it
    returns. *)
Lemma returns_after_print {A} (m : M world A) (l : line) (rest : M world unit)
      (w w' : world) :
  (forall w1 w2, rest w1 = (inr tt, w2) -> exists ls, console w2 = ls ++ [l]) ->
  (m ;; rest) w = (inr tt, w') -> exists ls, console w' = ls ++ [l].
Proof.
  intros Hrest. unfold bind. destruct (m w) as [[e|a] w1]; [discriminate|].
  apply Hrest.
Qed.

Lemma main_body_last_line (w w' : world) :
  main_body loads w = (inr tt, w') -> exists ls, console w' = ls ++ [AllCompleted].
Proof.
  unfold main_body.
  repeat (apply returns_after_print; clear w w'; intros w w').
  unfold print. intros [= <-]. exists (console w). reflexivity.
Qed.

End ProbeEnds.

(** X3: the last line of a run is either the line that all tests completed,
    and then all seven requests were written, or the handler's line for the
    exception that ended the run. *)
Theorem run_ends_with_verdict_line
    (loads : string -> result json) (script : list reply) :
  exists ls,
    (printed (main loads (inr script)) = ls ++ [AllCompleted] /\
     sent (done (main loads (inr script))) = probe_requests) \/
    (exists e, printed (main loads (inr script)) = ls ++ [TestFailed e]).
Proof.
  destruct (main_body_exchanges loads (mkWorld [] [Popen ["./mcp-server"] None] script))
    as (r & w' & j & ls & acts & E & Hj & Ha & Hs & Hc & Hok & _).
  rewrite (main_of_body loads _ _ _ E). cbn [printed done].
  destruct r as [e|[]].
  - exists (console w'). right. exists e. reflexivity.
  - destruct (main_body_last_line loads _ _ E) as (ls' & El).
    destruct (Hok eq_refl) as [-> _].
    exists ls'. left. split.
    + rewrite app_nil_r. exact El.
    + rewrite Ha. simpl. rewrite sent_app, Hs. reflexivity.
Qed.

Ltac run_step Ho Hs Hl :=
  unfold bind, print, send_request, act, next_reply, bind; simpl;
  rewrite Ho; simpl;
  rewrite (proj2 (String.eqb_neq _ _) Hs); simpl;
  unfold lift; rewrite Hl; simpl.

(** X4: a step after the first whose response is absent, empty or without
    a [result] member prints its heading and nothing else, and returns, so
    that the next step runs: the failure leaves no line on the console. *)
Theorem later_steps_fail_silently
    (loads : string -> result json) (w : world) (s : string) (rest : list reply) :
  outbox w = Line s :: rest -> fails_quietly loads s ->
  only_heading 2 (step2 loads) w rest /\
  only_heading 3 (step3 loads) w rest /\
  only_heading 4 (step4 loads) w rest /\
  only_heading 5 (step5 loads) w rest /\
  only_heading 6 (step6 loads) w rest /\
  only_heading 7 (step7 loads) w rest.
Proof.
  intros Ho Hq.
  unfold only_heading, step2, step3, step4, step5, step6, step7.
  unfold bind, print, send_request, act, next_reply, bind. simpl.
  rewrite Ho. simpl.
  destruct (negb (s =? "")) eqn:Es; simpl.
  - destruct Hq as [->|(v & Hl & Hv)]; [discriminate|].
    unfold lift. rewrite Hl. simpl. rewrite Hv. simpl. unfold ret.
    rewrite <- !app_assoc. repeat split; reflexivity.
  - unfold ret, lift. simpl. rewrite <- !app_assoc. repeat split; reflexivity.
Qed.

(** X4 on a run: the server closed its output. *)
Lemma later_steps_fail_silently_witness :
  outbox (mkWorld [] [] [Line EmptyString]) = Line EmptyString :: [] /\
  fails_quietly Scenarios.loads EmptyString /\
  only_heading 2 (step2 Scenarios.loads) (mkWorld [] [] [Line EmptyString]) [] /\
  only_heading 3 (step3 Scenarios.loads) (mkWorld [] [] [Line EmptyString]) [] /\
  only_heading 4 (step4 Scenarios.loads) (mkWorld [] [] [Line EmptyString]) [] /\
  only_heading 5 (step5 Scenarios.loads) (mkWorld [] [] [Line EmptyString]) [] /\
  only_heading 6 (step6 Scenarios.loads) (mkWorld [] [] [Line EmptyString]) [] /\
  only_heading 7 (step7 Scenarios.loads) (mkWorld [] [] [Line EmptyString]) [].
Proof.
  split; [reflexivity|]. split; [left; reflexivity|].
  apply (later_steps_fail_silently Scenarios.loads
           (mkWorld [] [] [Line EmptyString]) EmptyString []);
    [reflexivity | left; reflexivity].
Defined.



















(** A text of 199 dashes and a euro sign has 200 characters in 202 bytes:
    it is printed whole.  With one more dash before the sign, the first 200
    characters are 200 dashes, and the sign is cut off with all its bytes. *)
Example system_info_counts_characters :
  String.length (Listings.dashes 199 ++ Listings.euro)%string = 202%nat /\
  len (JStr (Listings.dashes 199 ++ Listings.euro)) = inr 200%nat /\
  step5 Listings.loads (mkWorld [] [] [Line Listings.euro_info_text]) =
    (inr tt,
     mkWorld [Heading 5; SystemInfoRetrieved;
              SystemInfoBody (JStr (Listings.dashes 199 ++ Listings.euro))]
             [Write (nth 4 probe_requests JNull); Readline]
             []) /\
  slice_to 200 (JStr (Listings.dashes 200 ++ Listings.euro))
  = inr (JStr (Listings.dashes 200)).
Proof. repeat split; vm_compute; reflexivity. Qed.

Lemma is_str_iff (k : string) (x : json) : is_str k x = true <-> x = JStr k.
Proof.
  destruct x; simpl; try (split; [discriminate | intros [=]]).
  rewrite String.eqb_eq. split; [intros ->; reflexivity | intros [= ->]; reflexivity].
Qed.

(** X10: the test [response and "result" in response] accepts more than
    objects with a [result] member.  It holds exactly for an object with
    the key [result], a list with the string [result] among its items, and
    a string with [result] inside it; and it raises, instead of failing,
    exactly for [true] and for a number other than zero. *)
Theorem has_result_accepts (v : json) :
  (has_result v = inr true <->
     (exists members, v = JObj members /\ has_key "result" members = true) \/
     (exists items, v = JArr items /\ In (JStr "result") items) \/
     (exists text, v = JStr text /\ is_substring "result" text = true)) /\
  ((exists e, has_result v = inl e) <->
     v = JBool true \/
     (exists n, v = JInt n /\ n <> 0%Z) \/
     (exists q, v = JFloat q /\ ~ (q == 0)%Q)).
Proof.
  unfold has_result. split.
  - split.
    + destruct v as [|b|n|q|t|items|members]; simpl.
      * discriminate.
      * destruct b; discriminate.
      * destruct (negb (n =? 0)%Z); discriminate.
      * destruct (negb (Qeq_bool q 0)); discriminate.
      * destruct (negb (t =? "")); [|discriminate].
        intros [= H]. right. right. eauto.
      * destruct items as [|x items]; [discriminate|].
        intros [= H]. right. left. eexists. split; [reflexivity|].
        change (existsb (is_str "result") (x :: items) = true) in H.
        apply existsb_exists in H. destruct H as (y & Hin & Hy).
        apply is_str_iff in Hy. subst y. exact Hin.
      * destruct members as [|m members]; [discriminate|].
        intros [= H]. left. eauto.
    + intros [(members & -> & H)|[(items & -> & H)|(text & -> & H)]]; simpl.
      * destruct members as [|m members]; [discriminate|]. rewrite H. reflexivity.
      * destruct items as [|x items]; [destruct H|].
        assert (E : existsb (is_str "result") (x :: items) = true).
        { apply existsb_exists. exists (JStr "result"). split; [exact H|].
          apply is_str_iff. reflexivity. }
        unfold ok. rewrite E. reflexivity.
      * destruct text as [|c text]; [discriminate|]. simpl. unfold ok.
        rewrite H. reflexivity.
  - split.
    + intros (e & H).
      destruct v as [|b|n|q|t|items|members]; simpl in H.
      * discriminate.
      * destruct b; [left; reflexivity | discriminate].
      * destruct (n =? 0)%Z eqn:E; [discriminate|].
        right. left. exists n. split; [reflexivity|]. apply Z.eqb_neq. exact E.
      * destruct (Qeq_bool q 0) eqn:E; [discriminate|].
        right. right. exists q. split; [reflexivity|]. apply Qeq_bool_neq. exact E.
      * destruct (negb (t =? "")); discriminate.
      * destruct items; discriminate.
      * destruct members; discriminate.
    + intros [->|[(n & -> & H)|(q & -> & H)]]; simpl.
      * exists TypeError. reflexivity.
      * apply Z.eqb_neq in H. rewrite H. exists TypeError. reflexivity.
      * destruct (Qeq_bool q 0) eqn:E.
        -- apply Qeq_bool_iff in E. contradiction.
        -- exists TypeError. reflexivity.
Qed.

(** X11: a response that passes the test for a result without being an
    object (a list or a string with [result] in it) is accepted by the
    initialize step, which prints its success line; at any later step it
    raises [TypeError] right after the round trip, before anything but the
    heading is printed. *)
Theorem non_object_response_passes_then_raises
    (loads : string -> result json) (w : world)
    (s : string) (rest : list reply) (v : json) :
  outbox w = Line s :: rest -> s <> EmptyString -> loads s = inr v ->
  has_result v = inr true -> (forall members, v <> JObj members) ->
  step1 loads w =
    (inr tt,
     mkWorld (console w ++ [Heading 1; InitOk])
             (actions w ++ [Write (nth 0 probe_requests JNull); Readline])
             rest) /\
  raises_after_heading TypeError 2 (step2 loads) w rest /\
  raises_after_heading TypeError 3 (step3 loads) w rest /\
  raises_after_heading TypeError 4 (step4 loads) w rest /\
  raises_after_heading TypeError 5 (step5 loads) w rest /\
  raises_after_heading TypeError 6 (step6 loads) w rest /\
  raises_after_heading TypeError 7 (step7 loads) w rest.
Proof.
  intros Ho Hs Hl Hr Hno.
  assert (Hsub : subscript v "result" = inl TypeError).
  { destruct v; try reflexivity. exfalso. eapply Hno. reflexivity. }
  assert (Hft : forall member, first_text member v = inl TypeError).
  { intros member. unfold first_text. rewrite Hsub. reflexivity. }
  unfold raises_after_heading, step1, step2, step3, step4, step5, step6, step7.
  run_step Ho Hs Hl. rewrite Hr. simpl. rewrite Hsub.
  change (first_text "content" v) with (first_text "content" v).
  change (first_text "contents" v) with (first_text "contents" v).
  rewrite !Hft. simpl. rewrite <- !app_assoc. repeat split; reflexivity.
Qed.

(** X11 on a run: the server answers with the JSON string [no result]. *)
Lemma non_object_response_passes_then_raises_witness :
  has_result (JStr "no result") = inr true /\
  step1 Listings.loads (mkWorld [] [] [Line Listings.string_text]) =
    (inr tt,
     mkWorld ([] ++ [Heading 1; InitOk])
             ([] ++ [Write (nth 0 probe_requests JNull); Readline])
             []) /\
  raises_after_heading TypeError 2 (step2 Listings.loads)
    (mkWorld [] [] [Line Listings.string_text]) [] /\
  raises_after_heading TypeError 3 (step3 Listings.loads)
    (mkWorld [] [] [Line Listings.string_text]) [] /\
  raises_after_heading TypeError 4 (step4 Listings.loads)
    (mkWorld [] [] [Line Listings.string_text]) [] /\
  raises_after_heading TypeError 5 (step5 Listings.loads)
    (mkWorld [] [] [Line Listings.string_text]) [] /\
  raises_after_heading TypeError 6 (step6 Listings.loads)
    (mkWorld [] [] [Line Listings.string_text]) [] /\
  raises_after_heading TypeError 7 (step7 Listings.loads)
    (mkWorld [] [] [Line Listings.string_text]) [].
Proof.
  split; [reflexivity|].
  apply (non_object_response_passes_then_raises Listings.loads
           (mkWorld [] [] [Line Listings.string_text])
           Listings.string_text [] (JStr "no result"));
    [reflexivity | discriminate | reflexivity | reflexivity | discriminate].
Defined.



End ProbeExtras.

(** ** Further properties of the auditor *)

Module AuditExtras.
Import VerifyConfig AuditSpec AuditShape AuditFacts.





(** X13: when the entry of the server has no [command] member, the check
    announces the command as [None] and then fails with the message for an
    error while reading the configuration, for the [TypeError] that
    [os.path.exists(None)] raises; the failure is not reported as a missing
    executable. *)
Theorem missing_command_is_a_read_error
    (sys : system) (w : world)
    (text : string) (members entry : list (string * json)) :
  path_exists sys (config_path sys) = true ->
  read_text sys (config_path sys) = inr text ->
  loads sys text = inr (JObj members) ->
  lookup "basic-mcp-server" members = Some (JObj entry) ->
  lookup "command" entry = None ->
  check_config_file sys w =
    (inr false,
     mkWorld (console w ++ [Checking; ConfigFound (config_path sys);
                            ConfiguredCommand JNull; ErrorReading TypeError])
             (actions w)).
Proof.
  intros Hcfg Hr Hl Hm Hc.
  unfold check_config_file, try_except, bind, print, lift, ret. simpl.
  rewrite Hcfg. simpl. rewrite Hr, Hl. simpl.
  unfold has_key. rewrite Hm. simpl. rewrite Hc. simpl.
  rewrite <- !app_assoc. reflexivity.
Qed.

(** X13 on a run: the entry of the server is an empty object. *)
Lemma missing_command_is_a_read_error_witness :
  check_config_file Machines.bare_machine (mkWorld [] []) =
    (inr false,
     mkWorld ([] ++ [Checking; ConfigFound "/home/dev/.claude-code/mcp_servers.json";
                     ConfiguredCommand JNull; ErrorReading TypeError])
             []).
Proof.
  apply (missing_command_is_a_read_error Machines.bare_machine (mkWorld [] [])
           Machines.bare_config_text [("basic-mcp-server", JObj [])] []);
    reflexivity.
Defined.



(** X15: the configuration check reports each failure once.  It always
    returns a verdict; when the verdict is a pass, no failure line was
    printed and the last line says that the executable is runnable; when it
    is a failure, exactly one failure line was printed, and it is the last
    line. *)
Theorem config_failure_is_reported_once (sys : system) (w : world) :
  exists (b : bool) (ls : list line),
    check_config_file sys w = (inr b, mkWorld (console w ++ ls) (actions w)) /\
    length (filter is_config_failure ls) = (if b then 0 else 1)%nat /\
    (if b then last ls Checking = ExecutableRunnable
     else is_config_failure (last ls Checking) = true).
Proof.
  unfold check_config_file, try_except, bind, print, lift, ret. simpl.
  repeat branch;
    eexists _, _; rewrite <- ?app_assoc;
    (split; [reflexivity | split; reflexivity]).
Qed.

(** X16: when the server cannot be spawned, the handshake fails without
    any [communicate]: a missing executable is reported as not found in the
    current directory, and any other error of the spawn by its exception. *)
Theorem spawn_failure_fails_the_handshake
    (sys : system) (w : world) (e : exn) :
  popen sys ["./mcp-server"] (script_dir sys) = inl e ->
  test_server sys w =
    (inr false,
     mkWorld (console w ++ [Testing;
                            match e with
                            | FileNotFoundError => NotInCurrentDirectory
                            | _ => ErrorTesting e
                            end])
             (actions w ++ [Popen ["./mcp-server"] (Some (script_dir sys))])).
Proof.
  intros Hp.
  unfold test_server, communicate, try_except, bind, print, act, lift, ret, raise.
  simpl. rewrite Hp. simpl.
  destruct e; simpl; rewrite <- ?app_assoc; reflexivity.
Qed.

(** X16 on a run: there is no [./mcp-server] beside the script. *)
Lemma spawn_failure_fails_the_handshake_witness :
  test_server Machines.bare_machine (mkWorld [] []) =
    (inr false,
     mkWorld ([] ++ [Testing; NotInCurrentDirectory])
             ([] ++ [Popen ["./mcp-server"] (Some "/home/dev/argocd-mcp/scripts")])).
Proof.
  exact (spawn_failure_fails_the_handshake Machines.bare_machine (mkWorld [] [])
           FileNotFoundError eq_refl).
Defined.

(** X17: a server that exits with a status other than 0 and without output
    fails the handshake, and its standard error is shown when it can be
    decoded; when it cannot, the decoding error is reported instead, and
    the handshake still fails. *)
Theorem failed_server_shows_stderr
    (sys : system) (w : world) (returncode : Z) (stderr : string) :
  popen sys ["./mcp-server"] (script_dir sys)
  = inr (Exits returncode EmptyString stderr) ->
  returncode <> 0%Z ->
  test_server sys w =
    (inr false,
     mkWorld (console w ++ [Testing; ServerFailedToStart;
                            match decode sys stderr with
                            | Some text => StderrDump text
                            | None => ErrorTesting UnicodeDecodeError
                            end])
             (actions w ++ [Popen ["./mcp-server"] (Some (script_dir sys));
                            Communicate init_request 5])).
Proof.
  intros Hp Hrc. apply Z.eqb_neq in Hrc.
  unfold test_server, communicate, try_except, bind, print, act, lift, ret, raise.
  simpl. rewrite Hp. simpl. rewrite Hrc. simpl.
  destruct (decode sys stderr); simpl; rewrite <- ?app_assoc; reflexivity.
Qed.

(** X17 on a run: the server exits with status 3 and a message on its
    standard error. *)
Lemma failed_server_shows_stderr_witness :
  test_server (Scenarios.machine (Exits 3 EmptyString "boom")) (mkWorld [] []) =
    (inr false,
     mkWorld ([] ++ [Testing; ServerFailedToStart; StderrDump "boom"])
             ([] ++ [Popen ["./mcp-server"] (Some "/home/dev/argocd-mcp/scripts");
                     Communicate init_request 5])).
Proof.
  apply (failed_server_shows_stderr (Scenarios.machine (Exits 3 EmptyString "boom"))
           (mkWorld [] []) 3 "boom" eq_refl).
  discriminate.
Defined.

Lemma check_config_file_lines (sys : system) (w : world) :
  exists (b : bool) (ls : list line),
    check_config_file sys w
    = (inr b, mkWorld (console w ++ Checking :: ls) (actions w)) /\
    forallb (fun l => negb (is_summary l)) ls = true.
Proof.
  unfold check_config_file, try_except, bind, print, lift, ret. simpl.
  repeat branch;
    eexists _, _; rewrite <- ?app_assoc; (split; reflexivity).
Qed.

Lemma test_server_lines (sys : system) (w : world) :
  exists (b : bool) (ls : list line) (acts : list action),
    test_server sys w
    = (inr b, mkWorld (console w ++ Testing :: ls) (actions w ++ acts)) /\
    forallb (fun l => negb (is_summary l)) ls = true.
Proof.
  unfold test_server, communicate, try_except, bind, print, act, lift, ret, raise.
  simpl.
  repeat branch;
    eexists _, _, _; rewrite <- ?app_assoc; (split; reflexivity).
Qed.

(** X18: the auditor always runs both checks, the configuration check and
    then the handshake, also when the first one failed, and closes its
    report with exactly one summary: the success lines when both verdicts
    are passes, the line that issues were found otherwise. *)
Theorem both_checks_run_then_one_summary (sys : system) :
  exists (cb sb : bool) (ls1 ls2 : list line),
    config_ok sys = inr cb /\
    server_ok sys = inr sb /\
    printed (main sys)
    = Banner :: Rule :: Checking :: ls1 ++ Testing :: ls2 ++ Rule ::
      (if cb && sb
       then [AllGood; NextSteps; Advice 1; Advice 2; Advice 3]
       else [IssuesFound]) /\
    forallb (fun l => negb (is_summary l)) (ls1 ++ ls2) = true.
Proof.
  set (w0 := mkWorld [Banner; Rule] []).
  destruct (check_config_file_lines sys w0) as (cb & ls1 & E1 & F1).
  set (w1 := mkWorld (console w0 ++ Checking :: ls1) (actions w0)) in E1.
  destruct (test_server_lines sys w1) as (sb & ls2 & acts & E2 & F2).
  exists cb, sb, ls1, ls2.
  split.
  { unfold config_ok. rewrite (check_config_file_verdict sys _ w0), E1. reflexivity. }
  split.
  { unfold server_ok. rewrite (test_server_verdict sys _ w1), E2. reflexivity. }
  split.
  - unfold main, main_body. unfold bind at 1 2 3. simpl. fold w0. rewrite E1.
    unfold bind at 1. rewrite E2.
    destruct cb, sb; simpl; rewrite <- ?app_assoc; simpl;
      rewrite <- ?app_assoc; reflexivity.
  - rewrite forallb_app, F1, F2. reflexivity.
Qed.

End AuditExtras.
